(** * Screen-time timer and session manager

    A shallow embedding of [src/timer.cpp] (class [ScreenTimer]), of
    [src/session_manager.cpp] (class [SessionManager]), of the consumed-time
    record of [src/persistence.cpp], of the timer control of
    [src/screens/main_screen.cpp] and of the deep-sleep functions of
    [src/main.cpp], followed by the properties of the session lifecycle.

    Conventions of the embedding:
    - a [uint32_t] is a [Z] in [0, 2^32); every C++ addition and every cast
      to [uint32_t] is written with its wrap-around ([U32.wrap]);
    - a [time_t] is a signed integer, embedded as [Z];
    - [time(&now)] reads the wall clock: every member function that reads it
      receives the reading as the argument [now].  No member function lets
      two different readings influence its result (the second reading, where
      there is one, only feeds [Serial.printf]), so one reading per call is
      exact;
    - a non-const member function maps the timer to its successor (paired
      with the returned value, if any); a const member function is a function
      of the timer (and of the clock, when it reads it) that returns no timer;
    - [Serial.printf] logging, and the [static] variable that only throttles
      it in [update], have no influence on the state and are left out. *)

From Stdlib Require Import ZArith Bool List Lia.
From Stdlib Require Import String.
Import ListNotations.
Open Scope Z_scope.

(** ** Unsigned 32-bit arithmetic *)

Module U32.

Definition modulus : Z := 2 ^ 32.

(** Conversion to [uint32_t]. *)
Definition wrap (z : Z) : Z := z mod modulus.

(** [a + b] on two [uint32_t]. *)
Definition add (a b : Z) : Z := wrap (a + b).

Definition in_range (z : Z) : Prop := 0 <= z < modulus.

End U32.

(** ** timer.h : the data model *)

Inductive TimerState : Type :=
| STOPPED
| RUNNING
| EXPIRED.

Definition TimerState_eqb (a b : TimerState) : bool :=
  match a, b with
  | STOPPED, STOPPED | RUNNING, RUNNING | EXPIRED, EXPIRED => true
  | _, _ => false
  end.

Definition time_t : Type := Z.

Record ScreenTimer : Type := mkScreenTimer {
  _state : TimerState;
  _totalAllowanceSeconds : Z;
  _consumedTodaySeconds : Z;
  _sessionStartTime : time_t
}.

(** [ScreenTimer::ScreenTimer()]. *)
Definition ScreenTimer_new : ScreenTimer :=
  mkScreenTimer STOPPED 0 0 0.

(** The two counters are [uint32_t]. *)
Definition wf (t : ScreenTimer) : Prop :=
  U32.in_range (_totalAllowanceSeconds t) /\
  U32.in_range (_consumedTodaySeconds t).

(** ** timer.cpp : queries (const member functions) *)

Definition calculateCurrentSessionSeconds (now : time_t) (t : ScreenTimer) : Z :=
  if negb (TimerState_eqb (_state t) RUNNING) || (_sessionStartTime t =? 0)
  then 0
  else if now <=? _sessionStartTime t
       then 0
       else U32.wrap (now - _sessionStartTime t).

Definition getTotalConsumedSeconds (now : time_t) (t : ScreenTimer) : Z :=
  U32.add (_consumedTodaySeconds t) (calculateCurrentSessionSeconds now t).

Definition calculateRemainingSeconds (now : time_t) (t : ScreenTimer) : Z :=
  let totalConsumed := getTotalConsumedSeconds now t in
  if _totalAllowanceSeconds t <=? totalConsumed
  then 0
  else _totalAllowanceSeconds t - totalConsumed.

Definition getState (t : ScreenTimer) : TimerState := _state t.

Definition isRunning (t : ScreenTimer) : bool :=
  TimerState_eqb (_state t) RUNNING.

Definition isExpired (t : ScreenTimer) : bool :=
  TimerState_eqb (_state t) EXPIRED.

Definition getTotalAllowance (t : ScreenTimer) : Z :=
  _totalAllowanceSeconds t.

Definition getCompletedSessionsSeconds (t : ScreenTimer) : Z :=
  _consumedTodaySeconds t.

Definition getCurrentSessionSeconds (now : time_t) (t : ScreenTimer) : Z :=
  calculateCurrentSessionSeconds now t.

Definition getSessionStartTime (t : ScreenTimer) : time_t :=
  _sessionStartTime t.

(** ** timer.cpp : operations (non-const member functions) *)

Definition begin (allowanceSeconds consumedSeconds : Z) (t : ScreenTimer)
  : ScreenTimer :=
  mkScreenTimer
    (if allowanceSeconds <=? consumedSeconds then EXPIRED else STOPPED)
    allowanceSeconds consumedSeconds 0.

Definition reset (allowanceSeconds : Z) (t : ScreenTimer) : ScreenTimer :=
  mkScreenTimer STOPPED
    (if 0 <? allowanceSeconds then allowanceSeconds
     else _totalAllowanceSeconds t)
    0 0.

Definition start (now : time_t) (t : ScreenTimer) : bool * ScreenTimer :=
  let remaining := calculateRemainingSeconds now t in
  if remaining =? 0
  then (false,
        mkScreenTimer EXPIRED (_totalAllowanceSeconds t)
          (_consumedTodaySeconds t) (_sessionStartTime t))
  else if negb (TimerState_eqb (_state t) RUNNING)
       then (true,
             mkScreenTimer RUNNING (_totalAllowanceSeconds t)
               (_consumedTodaySeconds t) now)
       else (true, t).

(** The first two local computations of [startFromTimestamp]: the timestamp
    after the "timestamp in future, using now" correction, and
    [sessionElapsed = (uint32_t)(now - sessionStartTime)]. *)
Definition correctedStartTime (sessionStartTime now : time_t) : time_t :=
  if now <? sessionStartTime then now else sessionStartTime.

Definition sessionElapsed (sessionStartTime now : time_t) : Z :=
  U32.wrap (now - correctedStartTime sessionStartTime now).

Definition startFromTimestamp (sessionStartTime : time_t) (now : time_t)
    (t : ScreenTimer) : bool * ScreenTimer :=
  let totalConsumed :=
    U32.add (_consumedTodaySeconds t) (sessionElapsed sessionStartTime now) in
  if _totalAllowanceSeconds t <=? totalConsumed
  then (false,
        mkScreenTimer EXPIRED (_totalAllowanceSeconds t)
          (_totalAllowanceSeconds t) 0)
  else (true,
        mkScreenTimer RUNNING (_totalAllowanceSeconds t)
          (_consumedTodaySeconds t)
          (correctedStartTime sessionStartTime now)).

Definition stop (minimumDuration : Z) (now : time_t) (t : ScreenTimer)
  : Z * ScreenTimer :=
  if negb (TimerState_eqb (_state t) RUNNING)
  then (0, t)
  else
    let actualSeconds := calculateCurrentSessionSeconds now t in
    let effectiveSeconds :=
      if (0 <? minimumDuration) && (actualSeconds <? minimumDuration)
      then minimumDuration
      else actualSeconds in
    (actualSeconds,
     mkScreenTimer STOPPED (_totalAllowanceSeconds t)
       (U32.add (_consumedTodaySeconds t) effectiveSeconds) 0).

Definition abortSession (t : ScreenTimer) : ScreenTimer :=
  if TimerState_eqb (_state t) RUNNING
  then mkScreenTimer STOPPED (_totalAllowanceSeconds t)
         (_consumedTodaySeconds t) 0
  else t.

Definition toggle (now : time_t) (t : ScreenTimer) : bool * ScreenTimer :=
  if TimerState_eqb (_state t) RUNNING
  then (false, snd (stop 0 now t))
  else start now t.

Definition update (now : time_t) (t : ScreenTimer) : ScreenTimer :=
  if negb (TimerState_eqb (_state t) RUNNING)
  then t
  else
    let remaining := calculateRemainingSeconds now t in
    if remaining =? 0
    then mkScreenTimer EXPIRED (_totalAllowanceSeconds t)
           (_totalAllowanceSeconds t) 0
    else t.

Definition setConsumedTodaySeconds (seconds : Z) (t : ScreenTimer)
  : ScreenTimer :=
  if _totalAllowanceSeconds t <=? seconds
  then mkScreenTimer EXPIRED (_totalAllowanceSeconds t) seconds 0
  else if TimerState_eqb (_state t) EXPIRED
       then mkScreenTimer STOPPED (_totalAllowanceSeconds t) seconds
              (_sessionStartTime t)
       else mkScreenTimer (_state t) (_totalAllowanceSeconds t) seconds
              (_sessionStartTime t).

Definition setAllowance (allowanceSeconds : Z) (t : ScreenTimer)
  : ScreenTimer :=
  if allowanceSeconds =? 0
  then t
  else if allowanceSeconds <=? _consumedTodaySeconds t
       then mkScreenTimer EXPIRED allowanceSeconds (_consumedTodaySeconds t) 0
       else if TimerState_eqb (_state t) EXPIRED
            then mkScreenTimer STOPPED allowanceSeconds
                   (_consumedTodaySeconds t) (_sessionStartTime t)
            else mkScreenTimer (_state t) allowanceSeconds
                   (_consumedTodaySeconds t) (_sessionStartTime t).

Definition addAllowance (additionalSeconds : Z) (now : time_t)
    (t : ScreenTimer) : ScreenTimer :=
  let t1 :=
    mkScreenTimer (_state t)
      (U32.add (_totalAllowanceSeconds t) additionalSeconds)
      (_consumedTodaySeconds t) (_sessionStartTime t) in
  if TimerState_eqb (_state t1) EXPIRED
     && (0 <? calculateRemainingSeconds now t1)
  then mkScreenTimer STOPPED (_totalAllowanceSeconds t1)
         (_consumedTodaySeconds t1) (_sessionStartTime t1)
  else t1.

(** ** session_manager.h / session_manager.cpp : snapshots *)

Record SessionSnapshot : Type := mkSessionSnapshot {
  consumedTodaySeconds : Z;
  sessionStartTime : time_t;
  timerState : TimerState;
  weekday : Z;
  isValid : bool
}.

(** [SessionSnapshot::SessionSnapshot()]. *)
Definition SessionSnapshot_new : SessionSnapshot :=
  mkSessionSnapshot 0 0 STOPPED 255 false.

(** [SessionManager::createSnapshot] on the manager's timer.  The weekday
    comes from [AppState::getInstance().getCurrentWeekday()], the clock's
    [tm_wday]; it is the argument [currentWeekday]. *)
Definition createSnapshot (currentWeekday : Z) (t : ScreenTimer)
  : SessionSnapshot :=
  mkSessionSnapshot
    (getCompletedSessionsSeconds t)
    (getSessionStartTime t)
    (getState t)
    currentWeekday
    true.

(** [SessionManager::restoreFromSnapshot] on the manager's timer. *)
Definition restoreFromSnapshot (snapshot : SessionSnapshot)
    (currentWeekday : Z) (now : time_t) (t : ScreenTimer)
  : bool * ScreenTimer :=
  if negb (isValid snapshot)
  then (false, t)
  else if negb (weekday snapshot =? 255)
          && negb (weekday snapshot =? currentWeekday)
  then (false, t)
  else
    let t1 := setConsumedTodaySeconds (consumedTodaySeconds snapshot) t in
    if TimerState_eqb (timerState snapshot) RUNNING
       && (0 <? sessionStartTime snapshot)
    then
      let (started, t2) :=
        startFromTimestamp (sessionStartTime snapshot) now t1 in
      if started then (true, t2) else (false, t2)
    else (true, t1).

(** ** Calls on the timer, and sequences of calls *)

(** The public operations of [ScreenTimer] that can change it. *)
Inductive Call : Type :=
| CBegin (allowanceSeconds consumedSeconds : Z)
| CReset (allowanceSeconds : Z)
| CStart
| CStartFromTimestamp (sessionStartTime : time_t)
| CStop (minimumDuration : Z)
| CAbortSession
| CToggle
| CUpdate
| CSetConsumedTodaySeconds (seconds : Z)
| CSetAllowance (allowanceSeconds : Z)
| CAddAllowance (additionalSeconds : Z).

(** The timer after one call made when the clock reads [now]. *)
Definition exec (c : Call) (now : time_t) (t : ScreenTimer) : ScreenTimer :=
  match c with
  | CBegin a s => begin a s t
  | CReset a => reset a t
  | CStart => snd (start now t)
  | CStartFromTimestamp ts => snd (startFromTimestamp ts now t)
  | CStop m => snd (stop m now t)
  | CAbortSession => abortSession t
  | CToggle => snd (toggle now t)
  | CUpdate => update now t
  | CSetConsumedTodaySeconds s => setConsumedTodaySeconds s t
  | CSetAllowance a => setAllowance a t
  | CAddAllowance d => addAllowance d now t
  end.

(** A call together with the clock reading at which it is made. *)
Definition Event : Type := (Call * time_t)%type.

Fixpoint run (tr : list Event) (t : ScreenTimer) : ScreenTimer :=
  match tr with
  | [] => t
  | (c, now) :: tr' => run tr' (exec c now t)
  end.

(** The clock readings of a sequence never go back, start at [lo] or later
    and stay below [hi]. *)
Fixpoint chronological (lo hi : time_t) (tr : list Event) : bool :=
  match tr with
  | [] => true
  | (_, now) :: tr' => (lo <=? now) && (now <? hi) && chronological now hi tr'
  end.

(** The calls of the conservation property: [start()], [update()] and
    [stop(0)]. *)
Definition conservation_call (c : Call) : bool :=
  match c with
  | CStart | CUpdate => true
  | CStop m => m =? 0
  | _ => false
  end.

(** No [start()] of the sequence is issued on a session that is running and
    has already used up the allowance. *)
Fixpoint starts_in_budget (tr : list Event) (t : ScreenTimer) : bool :=
  match tr with
  | [] => true
  | (c, now) :: tr' =>
      match c with
      | CStart =>
          negb (isRunning t) || negb (calculateRemainingSeconds now t =? 0)
      | _ => true
      end
      && starts_in_budget tr' (exec c now t)
  end.

(** ** The invariant of the data model *)

(** [state == Running] if and only if [sessionStartTime != 0]. *)
Definition session_inv (t : ScreenTimer) : Prop :=
  _state t = RUNNING <-> _sessionStartTime t <> 0.

(** The operations that can take a running timer to [EXPIRED]. *)
Definition may_expire (c : Call) : bool :=
  match c with
  | CBegin _ _ | CStart | CStartFromTimestamp _ | CUpdate
  | CSetConsumedTodaySeconds _ | CSetAllowance _ => true
  | _ => false
  end.

(** The test under which each of them does so, as each function writes it:
    [begin] and the two setters compare the new counters, [start] and
    [update] find nothing remaining, [startFromTimestamp] finds the
    allowance reached by the completed total plus the elapsed time. *)
Definition expiry_guard (c : Call) (now : time_t) (t : ScreenTimer) : bool :=
  match c with
  | CBegin a s => a <=? s
  | CStart | CUpdate => calculateRemainingSeconds now t =? 0
  | CStartFromTimestamp ts =>
      _totalAllowanceSeconds t
      <=? U32.add (_consumedTodaySeconds t) (sessionElapsed ts now)
  | CSetConsumedTodaySeconds s => _totalAllowanceSeconds t <=? s
  | CSetAllowance a => negb (a =? 0) && (a <=? _consumedTodaySeconds t)
  | _ => false
  end.

(** ** Wall-clock account of the sessions (the specification's side)

    The specification's conservation property counts sessions by the wall
    clock.  The ledger below follows its words and never looks at the timer: a
    session opens when [start()] is accepted (no session open, allowance not
    used up), and completes at [stop()] or at the [update()] tick that finds
    no allowance left; a completed session adds its duration, the clock
    reading at completion minus the reading at its start.

    With [capped = false] every completed session counts its full wall-clock
    duration.  With [capped = true] a session that [update()] ends counts
    only the allowance that was left, so that the account becomes [A]. *)

Record Ledger : Type := mkLedger {
  open_since : option time_t;
  charged : Z
}.

Definition ledger_step (capped : bool) (A : Z) (c : Call) (now : time_t)
    (l : Ledger) : Ledger :=
  match c, open_since l with
  | CStart, None =>
      if charged l <? A then mkLedger (Some now) (charged l) else l
  | CStop _, Some s => mkLedger None (charged l + (now - s))
  | CUpdate, Some s =>
      if A <=? charged l + (now - s)
      then mkLedger None (if capped then A else charged l + (now - s))
      else l
  | _, _ => l
  end.

Fixpoint ledger_run (capped : bool) (A : Z) (tr : list Event) (l : Ledger)
  : Ledger :=
  match tr with
  | [] => l
  | (c, now) :: tr' => ledger_run capped A tr' (ledger_step capped A c now l)
  end.

(** Every [update()] that ends a session arrives no later than the second
    the allowance runs out. *)
Fixpoint updates_on_time (A : Z) (tr : list Event) (l : Ledger) : bool :=
  match tr with
  | [] => true
  | (c, now) :: tr' =>
      match c, open_since l with
      | CUpdate, Some s => charged l + (now - s) <=? A
      | _, _ => true
      end
      && updates_on_time A tr' (ledger_step false A c now l)
  end.

(** Conservation for one sequence of calls on a timer initialised with
    [begin(A, 0)]: once no session is running, the timer's consumed total is
    the ledger's, and the remaining time is [A] minus it, clamped at 0. *)
Definition conservation (capped : bool) (A : Z) (tr : list Event) : Prop :=
  let t := run tr (begin A 0 ScreenTimer_new) in
  let l := ledger_run capped A tr (mkLedger None 0) in
  isRunning t = false ->
  _consumedTodaySeconds t = charged l /\
  forall now, calculateRemainingSeconds now t
              = Z.max 0 (A - _consumedTodaySeconds t).

(** The timer agrees with the ledger: same allowance, same completed total,
    and a session of the timer is running exactly when one is open in the
    ledger, since the same timestamp.  [base] is the first clock reading of
    the sequence and [last] the latest; the bounds on [charged] are what
    keeps every sum below 2^32. *)
Definition tracks (A : Z) (base last : time_t) (t : ScreenTimer) (l : Ledger)
  : Prop :=
  _totalAllowanceSeconds t = A /\
  _consumedTodaySeconds t = charged l /\
  0 <= charged l /\
  match open_since l with
  | Some s =>
      _state t = RUNNING /\ _sessionStartTime t = s /\
      base <= s <= last /\ charged l <= s - base
  | None => _state t <> RUNNING /\ charged l <= last - base
  end.

(** ** The elapsed-time subtraction, with underflow made visible

    [(uint32_t)(now - start)] is meant for [start <= now].  The checked
    subtraction below fails on a negative difference; the two functions that
    subtract timestamps are repeated with it, guard for guard. *)

Definition elapsed_checked (now start : time_t) : option Z :=
  if now <? start then None else Some (U32.wrap (now - start)).

Definition calculateCurrentSessionSeconds_checked (now : time_t)
    (t : ScreenTimer) : option Z :=
  if negb (TimerState_eqb (_state t) RUNNING) || (_sessionStartTime t =? 0)
  then Some 0
  else if now <=? _sessionStartTime t
       then Some 0
       else elapsed_checked now (_sessionStartTime t).

Definition sessionElapsed_checked (sessionStartTime now : time_t)
  : option Z :=
  elapsed_checked now (correctedStartTime sessionStartTime now).

(** ** persistence.h / persistence.cpp : the consumed-time record

    [Preferences] is the ESP32 key-value library behind
    [PersistenceManager::_prefs].  Of its keys the two of the consumed-time
    record are embedded, ["consumedToday"] (a [uint32_t]) and
    ["consumedDay"] (a [uint8_t]); an absent key is [None].  What the library
    does in a call is an input, [PrefsOutcome]: whether [begin] opens the
    namespace, and how many bytes [putULong] and [putUChar] report written
    (0 on failure, in which case the key is taken to keep its old value). *)

Record Preferences : Type := mkPreferences {
  KEY_CONSUMED_TODAY : option Z;
  KEY_CONSUMED_WEEKDAY : option Z
}.

Record PrefsOutcome : Type := mkPrefsOutcome {
  begin_opens : bool;
  putULong_written : Z;
  putUChar_written : Z
}.

Record PersistenceManager : Type := mkPersistenceManager {
  _initialized : bool;
  _namespaceOpen : bool;
  _prefs : Preferences
}.

(** [PersistenceManager::PersistenceManager()], on an empty store. *)
Definition PersistenceManager_new : PersistenceManager :=
  mkPersistenceManager false false (mkPreferences None None).

Definition openNamespace (io : PrefsOutcome) (p : PersistenceManager)
  : bool * PersistenceManager :=
  if _namespaceOpen p
  then (true, p)
  else if negb (begin_opens io)
       then (false, p)
       else (true, mkPersistenceManager (_initialized p) true (_prefs p)).

Definition closeNamespace (p : PersistenceManager) : PersistenceManager :=
  if _namespaceOpen p
  then mkPersistenceManager (_initialized p) false (_prefs p)
  else p.

(** [_prefs.putULong(KEY_CONSUMED_TODAY, v)] and
    [_prefs.putUChar(KEY_CONSUMED_WEEKDAY, v)] with the reported size. *)
Definition putULong_consumedToday (written v : Z) (s : Preferences)
  : Preferences :=
  if 0 <? written
  then mkPreferences (Some v) (KEY_CONSUMED_WEEKDAY s)
  else s.

Definition putUChar_consumedDay (written v : Z) (s : Preferences)
  : Preferences :=
  if 0 <? written
  then mkPreferences (KEY_CONSUMED_TODAY s) (Some v)
  else s.

Definition saveConsumedToday (io : PrefsOutcome) (consumedSeconds : Z)
    (weekday : Z) (p : PersistenceManager) : bool * PersistenceManager :=
  if negb (_initialized p)
  then (false, p)
  else if 6 <? weekday
  then (false, p)
  else
    let (opened, p1) := openNamespace io p in
    if negb opened
    then (false, p1)
    else
      let success :=
        (0 <? putULong_written io) && (0 <? putUChar_written io) in
      let store :=
        putUChar_consumedDay (putUChar_written io) weekday
          (putULong_consumedToday (putULong_written io) consumedSeconds
             (_prefs p1)) in
      (success,
       closeNamespace
         (mkPersistenceManager (_initialized p1) (_namespaceOpen p1) store)).

Definition loadConsumedToday (io : PrefsOutcome) (currentWeekday : Z)
    (p : PersistenceManager) : Z * PersistenceManager :=
  if negb (_initialized p)
  then (0, p)
  else
    let (opened, p1) := openNamespace io p in
    if negb opened
    then (0, p1)
    else
      let savedWeekday :=
        match KEY_CONSUMED_WEEKDAY (_prefs p1) with
        | Some d => d
        | None => 255
        end in
      let consumedSeconds :=
        match KEY_CONSUMED_TODAY (_prefs p1) with
        | Some v => v
        | None => 0
        end in
      let p2 := closeNamespace p1 in
      if negb (savedWeekday =? currentWeekday)
      then (0, p2)
      else (consumedSeconds, p2).

Definition clearConsumedToday (io : PrefsOutcome) (p : PersistenceManager)
  : bool * PersistenceManager :=
  if negb (_initialized p)
  then (false, p)
  else
    let (opened, p1) := openNamespace io p in
    if negb opened
    then (false, p1)
    else
      (true,
       closeNamespace
         (mkPersistenceManager (_initialized p1) (_namespaceOpen p1)
            (mkPreferences None None))).

(** ** session_manager.cpp : the session lifecycle

    [SessionManager] works on the timer it references, on the two
    singletons [AppState] and [PersistenceManager], and on the API client it
    points to.  They are gathered in one record.  Of [AppState] the two
    fields the manager reads are embedded.  [_apiClient] is a pointer: the
    field says whether it is set.  [ApiClient::pushConsumedTime] is an HTTP
    request whose result is only logged: the requests made are recorded, in
    order, latest first. *)

Record PushRequest : Type := mkPushRequest {
  push_childId : String.string;
  push_durationMinutes : Z;
  push_startTime : time_t
}.

Record Device : Type := mkDevice {
  _timer : ScreenTimer;
  persistenceManager : PersistenceManager;
  hasUnlimitedAllowance : bool;
  selectedChildId : String.string;
  _apiClient : bool;
  pushConsumedTime_calls : list PushRequest
}.

Definition with_timer (t : ScreenTimer) (d : Device) : Device :=
  mkDevice t (persistenceManager d) (hasUnlimitedAllowance d)
    (selectedChildId d) (_apiClient d) (pushConsumedTime_calls d).

Definition with_persistence (p : PersistenceManager) (d : Device) : Device :=
  mkDevice (_timer d) p (hasUnlimitedAllowance d)
    (selectedChildId d) (_apiClient d) (pushConsumedTime_calls d).

(** [childId[0] == 0] on the C string. *)
Definition childId_empty (childId : String.string) : bool :=
  match childId with
  | String.EmptyString => true
  | String.String _ _ => false
  end.

Definition pushSessionToApi (durationSeconds : Z) (startTime : time_t)
    (d : Device) : Device :=
  if negb (_apiClient d)
  then d
  else if childId_empty (selectedChildId d)
  then d
  else if startTime =? 0
  then d
  else
    let durationMinutes := U32.add durationSeconds 59 / 60 in
    mkDevice (_timer d) (persistenceManager d) (hasUnlimitedAllowance d)
      (selectedChildId d) (_apiClient d)
      (mkPushRequest (selectedChildId d) durationMinutes startTime
         :: pushConsumedTime_calls d).

(** [currentWeekday] is [AppState::getInstance().getCurrentWeekday()]. *)
Definition persistToNvs (io : PrefsOutcome) (currentWeekday : Z)
    (d : Device) : Device :=
  let consumedSeconds := getCompletedSessionsSeconds (_timer d) in
  with_persistence
    (snd (saveConsumedToday io consumedSeconds currentWeekday
            (persistenceManager d)))
    d.

Definition loadFromNvs (io : PrefsOutcome) (currentWeekday : Z) (d : Device)
  : Z * Device :=
  let (v, p) := loadConsumedToday io currentWeekday (persistenceManager d) in
  (v, with_persistence p d).

Definition clearNvsConsumedTime (io : PrefsOutcome) (d : Device) : Device :=
  with_persistence (snd (clearConsumedToday io (persistenceManager d))) d.

Definition startSession (now : time_t) (d : Device) : bool * Device :=
  if hasUnlimitedAllowance d
  then (false, d)
  else
    let (started, t) := start now (_timer d) in
    if negb started
    then (false, with_timer t d)
    else (true, with_timer t d).

Definition stopSession (minimumDuration : Z) (io : PrefsOutcome)
    (currentWeekday : Z) (now : time_t) (d : Device) : Z * Device :=
  if negb (isRunning (_timer d))
  then (0, d)
  else
    let sessionStartTime := getSessionStartTime (_timer d) in
    let (actualDuration, t) := stop minimumDuration now (_timer d) in
    let effectiveDuration :=
      if (0 <? minimumDuration) && (actualDuration <? minimumDuration)
      then minimumDuration
      else actualDuration in
    (actualDuration,
     pushSessionToApi effectiveDuration sessionStartTime
       (persistToNvs io currentWeekday (with_timer t d))).

(** [SessionManager::abortSession]. *)
Definition abortSession_manager (d : Device) : Device :=
  if negb (isRunning (_timer d))
  then d
  else with_timer (abortSession (_timer d)) d.

Definition onSessionExpired (sessionDuration : Z) (sessionStartTime : time_t)
    (io : PrefsOutcome) (currentWeekday : Z) (d : Device) : Device :=
  pushSessionToApi sessionDuration sessionStartTime
    (persistToNvs io currentWeekday d).

Definition resetForNewDay (newAllowanceSeconds : Z) (io : PrefsOutcome)
    (d : Device) : Device :=
  let d1 := clearNvsConsumedTime io d in
  with_timer (reset newAllowanceSeconds (_timer d1)) d1.

(** ** screens/main_screen.cpp : the toggle policy and the periodic tick

    [MainScreen] drives the session manager from the button and from the
    loop.  Notifications, beeps, dialogs and drawing do not touch the timer
    and are left out; what the screen decided is returned as a value.
    [toggleTimer] reads the clock twice when it stops a session, once to
    measure the session for the policy ([now]) and once inside the stop
    ([nowStop]); [update] reads it before the tick ([nowBefore]) and in the
    tick ([nowTick]). *)

(** config.h *)
Definition MINIMUM_SESSION_ENABLED : bool := true.
Definition MINIMUM_SESSION_DURATION_SECONDS : Z := 5 * 60.
Definition MISTAKEN_SESSION_DURATION_SECS : Z := 5.

(** dialog.h *)
Inductive DialogResult : Type :=
| NONE
| BUTTON_1
| BUTTON_2
| DISMISSED.

Definition startTimer (now : time_t) (d : Device) : bool * Device :=
  if isExpired (_timer d)
  then (false, d)
  else
    let (started, d1) := startSession now d in
    if started then (true, d1) else (false, d1).

Definition stopTimer (minimumDuration : Z) (io : PrefsOutcome)
    (currentWeekday : Z) (now : time_t) (d : Device) : Device :=
  snd (stopSession minimumDuration io currentWeekday now d).

(** What [toggleTimer] did. *)
Inductive ToggleOutcome : Type :=
| MistakenSessionAborted
| MinimumSessionWarningShown
| SessionStopped
| StartAttempted (started : bool).

Definition toggleTimer (io : PrefsOutcome) (currentWeekday : Z)
    (now nowStop : time_t) (d : Device) : ToggleOutcome * Device :=
  if isRunning (_timer d)
  then
    let currentSessionSecs := getCurrentSessionSeconds now (_timer d) in
    if currentSessionSecs <? MISTAKEN_SESSION_DURATION_SECS
    then (MistakenSessionAborted, abortSession_manager d)
    else if MINIMUM_SESSION_ENABLED
            && (currentSessionSecs <? MINIMUM_SESSION_DURATION_SECONDS)
    then (MinimumSessionWarningShown, d)
    else (SessionStopped, stopTimer 0 io currentWeekday nowStop d)
  else
    let (started, d1) := startTimer now d in
    (StartAttempted started, d1).

Definition onMinimumSessionDialogResult (result : DialogResult)
    (io : PrefsOutcome) (currentWeekday : Z) (now : time_t) (d : Device)
  : Device :=
  match result with
  | BUTTON_2 =>
      stopTimer MINIMUM_SESSION_DURATION_SECONDS io currentWeekday now d
  | _ => d
  end.

Definition onTimerExpired (sessionDurationSeconds : Z)
    (sessionStartTime : time_t) (io : PrefsOutcome) (currentWeekday : Z)
    (d : Device) : Device :=
  onSessionExpired sessionDurationSeconds sessionStartTime io currentWeekday d.

(** The timer part of [MainScreen::update]. *)
Definition MainScreen_update (io : PrefsOutcome) (currentWeekday : Z)
    (nowBefore nowTick : time_t) (d : Device) : Device :=
  if isRunning (_timer d)
  then
    let preUpdateSessionDuration :=
      getCurrentSessionSeconds nowBefore (_timer d) in
    let preUpdateSessionStartTime := getSessionStartTime (_timer d) in
    let d1 := with_timer (update nowTick (_timer d)) d in
    if isExpired (_timer d1)
    then onTimerExpired preUpdateSessionDuration preUpdateSessionStartTime
           io currentWeekday d1
    else d1
  else d.

(** ** main.cpp : deep sleep

    The [RTC_DATA_ATTR] variables survive deep sleep; [rtcScreenType], which
    only selects the screen shown after the wake-up, is left out.  The
    system calls are inputs: [wokeFromDeepSleep] is
    [esp_sleep_get_wakeup_cause() != ESP_SLEEP_WAKEUP_UNDEFINED],
    [isLoggedIn] is [AppState::isLoggedIn()], and the weekdays are readings
    of [AppState::getCurrentWeekday()]. *)

Record RtcMemory : Type := mkRtcMemory {
  rtcWasTimerRunning : bool;
  rtcSessionStartTime : time_t;
  rtcConsumedTodaySeconds : Z;
  rtcHasValidState : bool;
  rtcTimerState : TimerState;
  rtcWeekday : Z;
  rtcWasLoggedIn : bool
}.

(** The initial values of the RTC variables. *)
Definition RtcMemory_init : RtcMemory :=
  mkRtcMemory false 0 0 false STOPPED 255 false.

(** The globals [checkAndRestoreFromSleep] works on. *)
Record Globals : Type := mkGlobals {
  rtc : RtcMemory;
  screenTimer : ScreenTimer;
  restoreTimerRunning : bool
}.

Definition checkAndRestoreFromSleep (wokeFromDeepSleep : bool)
    (isLoggedIn : bool) (currentWeekday : Z) (now : time_t) (g : Globals)
  : bool * Globals :=
  if negb wokeFromDeepSleep
  then (false, g)
  else if negb (rtcHasValidState (rtc g))
  then (false, g)
  else if rtcWasLoggedIn (rtc g) && negb isLoggedIn
  then (false,
        mkGlobals
          (mkRtcMemory (rtcWasTimerRunning (rtc g))
             (rtcSessionStartTime (rtc g)) (rtcConsumedTodaySeconds (rtc g))
             false (rtcTimerState (rtc g)) (rtcWeekday (rtc g))
             (rtcWasLoggedIn (rtc g)))
          (screenTimer g) (restoreTimerRunning g))
  else
    let dayChanged :=
      negb (rtcWeekday (rtc g) =? 255)
      && negb (rtcWeekday (rtc g) =? currentWeekday) in
    let r1 :=
      if dayChanged
      then mkRtcMemory false 0 0 (rtcHasValidState (rtc g)) STOPPED
             (rtcWeekday (rtc g)) (rtcWasLoggedIn (rtc g))
      else rtc g in
    let t1 :=
      setConsumedTodaySeconds (rtcConsumedTodaySeconds r1) (screenTimer g) in
    let (t2, running) :=
      if TimerState_eqb (rtcTimerState r1) RUNNING
         && rtcWasTimerRunning r1 && negb dayChanged
      then
        let (started, t) := startFromTimestamp (rtcSessionStartTime r1) now t1 in
        if started then (t, true) else (t, false)
      else (t1, false) in
    (true,
     mkGlobals
       (mkRtcMemory (rtcWasTimerRunning r1) (rtcSessionStartTime r1)
          (rtcConsumedTodaySeconds r1) false (rtcTimerState r1)
          (rtcWeekday r1) (rtcWasLoggedIn r1))
       t2 running).




(** ** Well-formed timers and calls *)

(** The counters are [uint32_t], and an expired timer has used up its
    allowance. *)
Definition timer_ok (t : ScreenTimer) : Prop :=
  wf t /\
  (_state t = EXPIRED -> _totalAllowanceSeconds t <= _consumedTodaySeconds t).

(** The [uint32_t] arguments of a call are [uint32_t]. *)
Definition call_in_range (c : Call) : Prop :=
  match c with
  | CBegin a s => U32.in_range a /\ U32.in_range s
  | CReset a | CSetAllowance a => U32.in_range a
  | CStop m => U32.in_range m
  | CSetConsumedTodaySeconds s => U32.in_range s
  | CAddAllowance a => U32.in_range a
  | CStart | CStartFromTimestamp _ | CAbortSession | CToggle | CUpdate => True
  end.

(** * Properties *)

(** ** Arithmetic and decidable equality *)

Module U32Facts.

Lemma wrap_in_range z : U32.in_range (U32.wrap z).
Proof.
  unfold U32.in_range, U32.wrap, U32.modulus.
  apply Z.mod_pos_bound. lia.
Qed.

Lemma wrap_small z : U32.in_range z -> U32.wrap z = z.
Proof. unfold U32.in_range, U32.wrap. intros H. now apply Z.mod_small. Qed.

Lemma add_in_range a b : U32.in_range (U32.add a b).
Proof. apply wrap_in_range. Qed.

Lemma add_small a b : U32.in_range (a + b) -> U32.add a b = a + b.
Proof. apply wrap_small. Qed.

Lemma add_0_r a : U32.in_range a -> U32.add a 0 = a.
Proof. intros H. unfold U32.add. rewrite Z.add_0_r. now apply wrap_small. Qed.

Lemma modulus_eq : U32.modulus = 4294967296.
Proof. reflexivity. Qed.

End U32Facts.

Lemma TimerState_eqb_eq a b : TimerState_eqb a b = true <-> a = b.
Proof. destruct a, b; simpl; split; congruence. Qed.

Lemma TimerState_eqb_neq a b : TimerState_eqb a b = false <-> a <> b.
Proof. destruct a, b; simpl; split; congruence. Qed.

Lemma TimerState_eqb_refl a : TimerState_eqb a a = true.
Proof. now destruct a. Qed.

(** Reduction of record projections and pairs only: the integers stay as
    they are written. *)
Ltac fields :=
  cbn [_state _totalAllowanceSeconds _consumedTodaySeconds _sessionStartTime
       fst snd] in *.

Ltac u32_range := unfold U32.in_range, U32.modulus in *; fields; lia.

Ltac inv_cases :=
  repeat match goal with
         | |- context [if ?b then _ else _] => destruct b eqn:?
         end;
  fields; unfold session_inv in *; fields;
  try solve [intuition (try congruence; try discriminate)].

(** ** Queries on a timer that is not running *)

Lemma current_session_not_running now t :
  _state t <> RUNNING -> calculateCurrentSessionSeconds now t = 0.
Proof.
  intros H. unfold calculateCurrentSessionSeconds.
  apply TimerState_eqb_neq in H. now rewrite H.
Qed.

Lemma current_session_running now t :
  _state t = RUNNING -> _sessionStartTime t <> 0 ->
  _sessionStartTime t <= now ->
  calculateCurrentSessionSeconds now t = U32.wrap (now - _sessionStartTime t).
Proof.
  intros Hs Hz Hle. unfold calculateCurrentSessionSeconds.
  rewrite Hs. simpl.
  destruct (Z.eqb_spec (_sessionStartTime t) 0) as [E|_]; [contradiction|].
  destruct (Z.leb_spec now (_sessionStartTime t)) as [L|_]; [|reflexivity].
  replace (now - _sessionStartTime t) with 0 by lia. reflexivity.
Qed.

Lemma current_session_in_range now t :
  U32.in_range (calculateCurrentSessionSeconds now t).
Proof.
  unfold calculateCurrentSessionSeconds.
  destruct (_ || _); [unfold U32.in_range, U32.modulus; lia|].
  destruct (_ <=? _); [unfold U32.in_range, U32.modulus; lia|].
  apply U32Facts.wrap_in_range.
Qed.

Lemma remaining_not_running now t :
  wf t -> _state t <> RUNNING ->
  calculateRemainingSeconds now t
  = Z.max 0 (_totalAllowanceSeconds t - _consumedTodaySeconds t).
Proof.
  intros [Ha Hc] H. unfold calculateRemainingSeconds, getTotalConsumedSeconds.
  rewrite (current_session_not_running now t H).
  rewrite (U32Facts.add_0_r _ Hc).
  destruct (Z.leb_spec (_totalAllowanceSeconds t) (_consumedTodaySeconds t));
    lia.
Qed.

(** ** Stopping a session *)

Lemma stop_running M now t :
  _state t = RUNNING ->
  stop M now t
  = (calculateCurrentSessionSeconds now t,
     mkScreenTimer STOPPED (_totalAllowanceSeconds t)
       (U32.add (_consumedTodaySeconds t)
          (if (0 <? M) && (calculateCurrentSessionSeconds now t <? M)
           then M else calculateCurrentSessionSeconds now t))
       0).
Proof. intros H. unfold stop. rewrite H. reflexivity. Qed.

Lemma stop_not_running M now t :
  _state t <> RUNNING -> stop M now t = (0, t).
Proof.
  intros H. unfold stop. apply TimerState_eqb_neq in H. now rewrite H.
Qed.

Lemma stop_clamped M now t :
  _state t = RUNNING -> 0 < M ->
  calculateCurrentSessionSeconds now t < M ->
  stop M now t
  = (calculateCurrentSessionSeconds now t,
     mkScreenTimer STOPPED (_totalAllowanceSeconds t)
       (U32.add (_consumedTodaySeconds t) M) 0).
Proof.
  intros Hrun HM He. rewrite (stop_running M now t Hrun).
  assert (E1 : (0 <? M) = true) by (apply Z.ltb_lt; exact HM).
  assert (E2 : (calculateCurrentSessionSeconds now t <? M) = true)
    by (apply Z.ltb_lt; exact He).
  now rewrite E1, E2.
Qed.

(** C4 (minimum-duration clamp).  [stop(M)] with [M > 0] on a running timer
    whose actual elapsed time [e] (what [calculateCurrentSessionSeconds]
    measures at the call) is below [M] returns [e], not [M], and commits
    [M]: the new [consumedTodaySeconds] is the old one plus [M] in [uint32_t]
    arithmetic, which is exactly old + [M] whenever that sum fits the type.
    The session is over: state [STOPPED], start timestamp cleared. *)
Theorem stop_minimum_commits_M_returns_actual
    (M : Z) (now : time_t) (t : ScreenTimer) :
  _state t = RUNNING ->
  0 < M ->
  calculateCurrentSessionSeconds now t < M ->
  fst (stop M now t) = calculateCurrentSessionSeconds now t /\
  _consumedTodaySeconds (snd (stop M now t))
  = U32.add (_consumedTodaySeconds t) M /\
  (U32.in_range (_consumedTodaySeconds t + M) ->
   _consumedTodaySeconds (snd (stop M now t)) = _consumedTodaySeconds t + M) /\
  _state (snd (stop M now t)) = STOPPED /\
  _sessionStartTime (snd (stop M now t)) = 0.
Proof.
  intros Hrun HM He.
  rewrite (stop_clamped M now t Hrun HM He). simpl.
  repeat split; try reflexivity.
  intros Hfit. now apply U32Facts.add_small.
Qed.

(** A five-minute minimum enforced on a session stopped after 4 seconds:
    4 is returned, 300 is committed on top of the 100 already consumed. *)
Lemma stop_minimum_commits_M_returns_actual_witness :
  fst (stop 300 1004 (mkScreenTimer RUNNING 3600 100 1000)) = 4 /\
  _consumedTodaySeconds (snd (stop 300 1004 (mkScreenTimer RUNNING 3600 100 1000)))
  = 400.
Proof.
  destruct (stop_minimum_commits_M_returns_actual 300 1004
              (mkScreenTimer RUNNING 3600 100 1000))
    as (Hret & _ & Hexact & _).
  - reflexivity.
  - lia.
  - vm_compute. reflexivity.
  - split.
    + rewrite Hret. vm_compute. reflexivity.
    + rewrite Hexact.
      * reflexivity.
      * unfold U32.in_range, U32.modulus. simpl. lia.
Defined.

(** C9 (a clamped minimum beyond the allowance).  When [stop(M)] commits a
    clamped minimum ([M > 0], actual elapsed below [M]) and the new
    [consumedTodaySeconds] is strictly beyond the allowance, the timer is
    [STOPPED], not [EXPIRED]: [calculateRemainingSeconds()] is 0 at every
    later clock reading while [isExpired()] is false, [update()] leaves the
    timer as it is, and the next [start()] returns false and sets the state
    to [EXPIRED]. *)
Theorem stop_clamp_beyond_allowance_is_stopped
    (M : Z) (now : time_t) (t : ScreenTimer) :
  _state t = RUNNING ->
  0 < M ->
  calculateCurrentSessionSeconds now t < M ->
  _totalAllowanceSeconds t < _consumedTodaySeconds (snd (stop M now t)) ->
  let t' := snd (stop M now t) in
  _consumedTodaySeconds t' = U32.add (_consumedTodaySeconds t) M /\
  _state t' = STOPPED /\
  isExpired t' = false /\
  (forall n, calculateRemainingSeconds n t' = 0) /\
  (forall n, update n t' = t') /\
  (forall n, fst (start n t') = false /\
             _state (snd (start n t')) = EXPIRED /\
             isExpired (snd (start n t')) = true).
Proof.
  intros Hrun HM He Hbeyond t'.
  assert (Et : t' = mkScreenTimer STOPPED (_totalAllowanceSeconds t)
                      (U32.add (_consumedTodaySeconds t) M) 0)
    by (unfold t'; now rewrite (stop_clamped M now t Hrun HM He)).
  assert (Hc : _consumedTodaySeconds t' = U32.add (_consumedTodaySeconds t) M)
    by now rewrite Et.
  assert (Hst : _state t' = STOPPED) by now rewrite Et.
  fold t' in Hbeyond.
  assert (Hrem : forall n, calculateRemainingSeconds n t' = 0).
  { intros n. unfold calculateRemainingSeconds, getTotalConsumedSeconds.
    rewrite (current_session_not_running n t') by (rewrite Hst; discriminate).
    rewrite U32Facts.add_0_r
      by (rewrite Hc; apply U32Facts.add_in_range).
    destruct (Z.leb_spec (_totalAllowanceSeconds t') (_consumedTodaySeconds t'));
      [reflexivity|].
    rewrite Et in *. simpl in *. lia. }
  repeat split.
  - exact Hc.
  - exact Hst.
  - unfold isExpired. now rewrite Hst.
  - exact Hrem.
  - intros n. unfold update. now rewrite Hst.
  - unfold start. now rewrite Hrem.
  - unfold start. now rewrite Hrem.
  - unfold start. now rewrite Hrem.
Qed.

(** Allowance 200, 100 consumed, a session stopped after 4 seconds with a
    300-second minimum: 400 consumed, stopped, and the next start expires
    the timer. *)
Lemma stop_clamp_beyond_allowance_is_stopped_witness :
  let t' := snd (stop 300 1004 (mkScreenTimer RUNNING 200 100 1000)) in
  _consumedTodaySeconds t' = 400 /\
  _state t' = STOPPED /\
  isExpired t' = false /\
  calculateRemainingSeconds 1005 t' = 0 /\
  fst (start 1005 t') = false /\
  _state (snd (start 1005 t')) = EXPIRED.
Proof.
  destruct (stop_clamp_beyond_allowance_is_stopped 300 1004
              (mkScreenTimer RUNNING 200 100 1000))
    as (Hc & Hst & Hexp & Hrem & _ & Hstart).
  - reflexivity.
  - lia.
  - vm_compute. reflexivity.
  - vm_compute. reflexivity.
  - intros t'. subst t'. destruct (Hstart 1005) as (Hf & Hs & _).
    split; [etransitivity; [exact Hc | reflexivity]|].
    split; [exact Hst|].
    split; [exact Hexp|].
    split; [apply Hrem|].
    split; [exact Hf|exact Hs].
Defined.

(** ** A running session measured by the wall clock *)

Lemma total_consumed_running now t :
  _state t = RUNNING -> _sessionStartTime t <> 0 ->
  _sessionStartTime t <= now ->
  0 <= _consumedTodaySeconds t ->
  U32.in_range (_consumedTodaySeconds t + (now - _sessionStartTime t)) ->
  getTotalConsumedSeconds now t
  = _consumedTodaySeconds t + (now - _sessionStartTime t).
Proof.
  intros Hs Hz Hle Hc Hfit. unfold getTotalConsumedSeconds.
  rewrite (current_session_running now t Hs Hz Hle).
  rewrite (U32Facts.wrap_small (now - _sessionStartTime t))
    by (unfold U32.in_range in *; lia).
  now apply U32Facts.add_small.
Qed.

Lemma remaining_running now t :
  _state t = RUNNING -> _sessionStartTime t <> 0 ->
  _sessionStartTime t <= now ->
  0 <= _consumedTodaySeconds t ->
  U32.in_range (_consumedTodaySeconds t + (now - _sessionStartTime t)) ->
  calculateRemainingSeconds now t
  = Z.max 0 (_totalAllowanceSeconds t
             - (_consumedTodaySeconds t + (now - _sessionStartTime t))).
Proof.
  intros Hs Hz Hle Hc Hfit. unfold calculateRemainingSeconds.
  rewrite (total_consumed_running now t Hs Hz Hle Hc Hfit).
  destruct (Z.leb_spec (_totalAllowanceSeconds t)
              (_consumedTodaySeconds t + (now - _sessionStartTime t))); lia.
Qed.

Lemma update_not_running now t :
  _state t <> RUNNING -> update now t = t.
Proof.
  intros H. unfold update. apply TimerState_eqb_neq in H. now rewrite H.
Qed.

Lemma update_running now t :
  _state t = RUNNING ->
  update now t
  = if calculateRemainingSeconds now t =? 0
    then mkScreenTimer EXPIRED (_totalAllowanceSeconds t)
           (_totalAllowanceSeconds t) 0
    else t.
Proof. intros H. unfold update. now rewrite H. Qed.

Lemma start_refused now t :
  calculateRemainingSeconds now t = 0 ->
  start now t
  = (false,
     mkScreenTimer EXPIRED (_totalAllowanceSeconds t)
       (_consumedTodaySeconds t) (_sessionStartTime t)).
Proof. intros H. unfold start. now rewrite H. Qed.

Lemma start_accepted now t :
  calculateRemainingSeconds now t <> 0 -> _state t <> RUNNING ->
  start now t
  = (true,
     mkScreenTimer RUNNING (_totalAllowanceSeconds t)
       (_consumedTodaySeconds t) now).
Proof.
  intros H Hs. unfold start.
  apply Z.eqb_neq in H. apply TimerState_eqb_neq in Hs. now rewrite H, Hs.
Qed.

Lemma start_already_running now t :
  calculateRemainingSeconds now t <> 0 -> _state t = RUNNING ->
  start now t = (true, t).
Proof.
  intros H Hs. unfold start. apply Z.eqb_neq in H. now rewrite H, Hs.
Qed.

(** ** Expiry on the periodic tick *)

(** C5 (expiry is detected by [update()]).  First part: on a running timer
    whose computed remaining time is 0, [update()] sets the state to
    [EXPIRED], [consumedTodaySeconds] to the allowance and [sessionStartTime]
    to 0, and every later [start()] returns false and leaves that state.
    Second part, the one-hour scenario, with the scenario's time [t] counted
    in seconds from the timestamp [T0] at which the session starts ([T0] is a
    Unix timestamp, not 0): every tick before [t = 3600] leaves the timer
    running, at [t = 3599] one second remains, and the tick at [t = 3600]
    performs the transition, after which nothing remains and [start()] is
    refused. *)
Theorem update_expires_when_nothing_remains :
  (forall (now : time_t) (t : ScreenTimer),
      wf t -> _state t = RUNNING -> calculateRemainingSeconds now t = 0 ->
      update now t
      = mkScreenTimer EXPIRED (_totalAllowanceSeconds t)
          (_totalAllowanceSeconds t) 0 /\
      forall now', start now' (update now t) = (false, update now t)) /\
  (forall T0 : time_t,
      T0 <> 0 ->
      let t1 := snd (start T0 (begin 3600 0 ScreenTimer_new)) in
      fst (start T0 (begin 3600 0 ScreenTimer_new)) = true /\
      t1 = mkScreenTimer RUNNING 3600 0 T0 /\
      (forall k, 0 <= k < 3600 ->
                 update (T0 + k) t1 = t1 /\
                 calculateRemainingSeconds (T0 + k) t1 = 3600 - k) /\
      calculateRemainingSeconds (T0 + 3599) (update (T0 + 3599) t1) = 1 /\
      _state (update (T0 + 3599) t1) = RUNNING /\
      update (T0 + 3600) (update (T0 + 3599) t1)
      = mkScreenTimer EXPIRED 3600 3600 0 /\
      (forall now',
          calculateRemainingSeconds now'
            (update (T0 + 3600) (update (T0 + 3599) t1)) = 0 /\
          fst (start now' (update (T0 + 3600) (update (T0 + 3599) t1)))
          = false)).
Proof.
  split.
  - intros now t [Ha _] Hrun Hrem.
    rewrite (update_running now t Hrun), Hrem.
    change (0 =? 0) with true. cbv iota.
    split; [reflexivity|].
    intros now'. rewrite start_refused; [reflexivity|].
    rewrite remaining_not_running; fields; try discriminate.
    + lia.
    + split; exact Ha.
  - intros T0 HT0 t1.
    assert (Et : start T0 (begin 3600 0 ScreenTimer_new)
                 = (true, mkScreenTimer RUNNING 3600 0 T0)) by reflexivity.
    assert (E1 : t1 = mkScreenTimer RUNNING 3600 0 T0)
      by (unfold t1; now rewrite Et).
    assert (Hrem : forall k, 0 <= k <= 3600 ->
               calculateRemainingSeconds (T0 + k) t1 = 3600 - k).
    { intros k Hk. rewrite E1, remaining_running; fields;
        try reflexivity; try lia; try u32_range. }
    assert (Htick : forall k, 0 <= k < 3600 -> update (T0 + k) t1 = t1).
    { intros k Hk. rewrite update_running by now rewrite E1.
      rewrite Hrem by lia.
      destruct (Z.eqb_spec (3600 - k) 0); [lia|reflexivity]. }
    split; [now rewrite Et|]. split; [exact E1|].
    split; [intros k Hk; split; [now apply Htick | apply Hrem; lia]|].
    rewrite (Htick 3599) by lia.
    split; [now rewrite (Hrem 3599) by lia|].
    split; [now rewrite E1|].
    assert (Eexp : update (T0 + 3600) t1 = mkScreenTimer EXPIRED 3600 3600 0).
    { rewrite update_running by now rewrite E1.
      rewrite (Hrem 3600) by lia. now rewrite E1. }
    split; [exact Eexp|].
    intros now'. rewrite Eexp. split; reflexivity.
Qed.

(** The scenario with the session started at Unix time 1700000000, and the
    general transition on a timer that has run its whole hour. *)
Lemma update_expires_when_nothing_remains_witness :
  update 1700003600 (mkScreenTimer RUNNING 3600 0 1700000000)
  = mkScreenTimer EXPIRED 3600 3600 0 /\
  calculateRemainingSeconds 1700003599
    (update 1700003599 (snd (start 1700000000 (begin 3600 0 ScreenTimer_new))))
  = 1.
Proof.
  destruct update_expires_when_nothing_remains as [Hgen Hscn].
  split.
  - apply (Hgen 1700003600 (mkScreenTimer RUNNING 3600 0 1700000000)).
    + unfold wf, U32.in_range, U32.modulus. simpl. lia.
    + reflexivity.
    + vm_compute. reflexivity.
  - assert (H0 : (1700000000 : Z) <> 0) by lia.
    destruct (Hscn 1700000000 H0) as (_ & _ & _ & H1 & _).
    exact H1.
Defined.

(** ** Restoring a snapshot *)

Lemma corrected_start_past ts now :
  ts <= now -> correctedStartTime ts now = ts.
Proof.
  intros H. unfold correctedStartTime.
  destruct (Z.ltb_spec now ts); [lia|reflexivity].
Qed.

Lemma corrected_start_future ts now :
  now < ts -> correctedStartTime ts now = now.
Proof.
  intros H. unfold correctedStartTime.
  destruct (Z.ltb_spec now ts); [reflexivity|lia].
Qed.

Lemma setConsumed_allowance s t :
  _totalAllowanceSeconds (setConsumedTodaySeconds s t)
  = _totalAllowanceSeconds t.
Proof.
  unfold setConsumedTodaySeconds.
  destruct (_ <=? _); [reflexivity|]. now destruct (TimerState_eqb _ _).
Qed.

Lemma setConsumed_consumed s t :
  _consumedTodaySeconds (setConsumedTodaySeconds s t) = s.
Proof.
  unfold setConsumedTodaySeconds.
  destruct (_ <=? _); [reflexivity|]. now destruct (TimerState_eqb _ _).
Qed.

(** A valid snapshot of a running session, taken on the current weekday (or
    with no weekday recorded), is restored by [setConsumedTodaySeconds]
    followed by [startFromTimestamp], whose verdict is the result. *)
Lemma restore_running_snapshot s wd now t :
  isValid s = true ->
  weekday s = wd \/ weekday s = 255 ->
  timerState s = RUNNING ->
  0 < sessionStartTime s ->
  restoreFromSnapshot s wd now t
  = startFromTimestamp (sessionStartTime s) now
      (setConsumedTodaySeconds (consumedTodaySeconds s) t).
Proof.
  intros Hv Hw Hr Hpos. unfold restoreFromSnapshot.
  rewrite Hv, Hr. cbn [negb TimerState_eqb].
  assert (E : negb (weekday s =? 255) && negb (weekday s =? wd) = false).
  { destruct Hw as [Hw|Hw]; rewrite Hw.
    - rewrite Z.eqb_refl. cbn [negb]. apply andb_false_r.
    - now rewrite Z.eqb_refl. }
  rewrite E.
  assert (P : (0 <? sessionStartTime s) = true) by now apply Z.ltb_lt.
  rewrite P. cbn [andb].
  destruct (startFromTimestamp _ _ _) as [[|] t2]; reflexivity.
Qed.

(** C7 (day-change rejection).  A snapshot whose weekday is set (not 0xFF)
    and differs from the caller's current weekday is rejected:
    [restoreFromSnapshot] returns false and leaves the timer untouched,
    whatever the snapshot's validity flag, state, consumed total and start
    timestamp are. *)
Theorem restore_rejects_day_change
    (s : SessionSnapshot) (currentWeekday : Z) (now : time_t)
    (t : ScreenTimer) :
  weekday s <> 255 ->
  weekday s <> currentWeekday ->
  restoreFromSnapshot s currentWeekday now t = (false, t).
Proof.
  intros Hset Hdiff. unfold restoreFromSnapshot.
  destruct (isValid s); [|reflexivity]. cbn [negb].
  apply Z.eqb_neq in Hset. apply Z.eqb_neq in Hdiff.
  now rewrite Hset, Hdiff.
Qed.

(** A snapshot of Tuesday with a session started two minutes before the
    restore, offered on Wednesday. *)
Lemma restore_rejects_day_change_witness :
  restoreFromSnapshot (mkSessionSnapshot 600 1700000000 RUNNING 2 true)
    3 1700000120 (begin 3600 0 ScreenTimer_new)
  = (false, begin 3600 0 ScreenTimer_new).
Proof.
  apply restore_rejects_day_change; cbn [weekday]; lia.
Defined.

(** C2, as the claim states it, fails: allowance 100, a valid snapshot of the
    current weekday with a session running since 1000 and nothing consumed,
    restored at 2000.  [startFromTimestamp] finds the allowance used up, the
    timer is left [EXPIRED] with consumed = allowance, and
    [restoreFromSnapshot] returns false, not true. *)
Lemma restore_expired_session_returns_false :
  let s := mkSessionSnapshot 0 1000 RUNNING 3 true in
  let t := begin 100 0 ScreenTimer_new in
  isValid s = true /\ weekday s = 3 /\ timerState s = RUNNING /\
  0 < sessionStartTime s /\
  fst (startFromTimestamp (sessionStartTime s) 2000
         (setConsumedTodaySeconds (consumedTodaySeconds s) t)) = false /\
  restoreFromSnapshot s 3 2000 t = (false, mkScreenTimer EXPIRED 100 100 0) /\
  fst (restoreFromSnapshot s 3 2000 t) <> true.
Proof.
  cbv zeta. repeat split; try reflexivity.
  vm_compute. discriminate.
Qed.

(** C2, amended (the session expired during the suspension).  For a valid
    snapshot of the current weekday with state [RUNNING] and
    [sessionStartTime > 0], when the completed-sessions total plus the gap
    [now - sessionStartTime] ([uint32_t] arithmetic, as
    [startFromTimestamp] computes it) reaches the allowance,
    [restoreFromSnapshot] leaves the timer [EXPIRED] with
    [consumedTodaySeconds == totalAllowanceSeconds] and
    [sessionStartTime == 0], so that nothing remains and no session runs, and
    it returns false. *)
Theorem restore_expired_during_suspension
    (s : SessionSnapshot) (currentWeekday : Z) (now : time_t)
    (t : ScreenTimer) :
  U32.in_range (_totalAllowanceSeconds t) ->
  isValid s = true ->
  weekday s = currentWeekday ->
  timerState s = RUNNING ->
  0 < sessionStartTime s ->
  _totalAllowanceSeconds t
  <= U32.add (consumedTodaySeconds s) (sessionElapsed (sessionStartTime s) now) ->
  fst (startFromTimestamp (sessionStartTime s) now
         (setConsumedTodaySeconds (consumedTodaySeconds s) t)) = false /\
  restoreFromSnapshot s currentWeekday now t
  = (false,
     mkScreenTimer EXPIRED (_totalAllowanceSeconds t)
       (_totalAllowanceSeconds t) 0) /\
  isRunning (snd (restoreFromSnapshot s currentWeekday now t)) = false /\
  forall n,
    calculateRemainingSeconds n (snd (restoreFromSnapshot s currentWeekday now t))
    = 0.
Proof.
  intros Ha Hv Hw Hr Hpos Hgap.
  rewrite (restore_running_snapshot s currentWeekday now t Hv (or_introl Hw) Hr Hpos).
  unfold startFromTimestamp.
  rewrite setConsumed_allowance, setConsumed_consumed.
  apply Z.leb_le in Hgap. rewrite Hgap. fields.
  repeat split.
  intros n. rewrite remaining_not_running; fields.
  - lia.
  - split; exact Ha.
  - discriminate.
Qed.

Lemma restore_expired_during_suspension_witness :
  restoreFromSnapshot (mkSessionSnapshot 40 1000 RUNNING 3 true) 3 2000
    (begin 100 0 ScreenTimer_new)
  = (false, mkScreenTimer EXPIRED 100 100 0).
Proof.
  apply (restore_expired_during_suspension
           (mkSessionSnapshot 40 1000 RUNNING 3 true) 3 2000
           (begin 100 0 ScreenTimer_new)).
  - unfold U32.in_range, U32.modulus. cbn. lia.
  - reflexivity.
  - reflexivity.
  - reflexivity.
  - cbn. lia.
  - vm_compute. discriminate.
Defined.

(** ** Snapshot and restore of a running session *)

(** C1 (no double count across a snapshot).  A snapshot of a running timer
    stores the completed-sessions total [c] only, and the original start
    timestamp [T].  If the snapshot is taken at clock reading [tsnap], when
    the session has been in flight for [e1] seconds, is restored on the same
    weekday at [now1] into any timer, the restoration succeeding (the session
    did not use up the allowance meanwhile), and the session is stopped at
    [now2], [e2 = now2 - tsnap] seconds after the snapshot, then the restored
    timer runs from [T] with [c] consumed, [stop(0)] returns the whole
    wall-clock span [now2 - T], and the consumed total after the stop is
    [c + (now2 - T)] in [uint32_t] arithmetic: exactly [c + e1 + e2]
    whenever that fits the type, [e1] being counted once.  ([e1] is what
    [getTotalConsumedSeconds] would have added to [c] at the snapshot.) *)
Theorem snapshot_restore_counts_session_once
    (t t0 : ScreenTimer) (wd : Z) (tsnap now1 now2 : time_t) :
  _state t = RUNNING ->
  0 < _sessionStartTime t ->
  _sessionStartTime t <= tsnap ->
  tsnap <= now1 ->
  now1 <= now2 ->
  fst (restoreFromSnapshot (createSnapshot wd t) wd now1 t0) = true ->
  let s := createSnapshot wd t in
  let t1 := snd (restoreFromSnapshot s wd now1 t0) in
  let e1 := getCurrentSessionSeconds tsnap t in
  let e2 := now2 - tsnap in
  consumedTodaySeconds s = _consumedTodaySeconds t /\
  sessionStartTime s = _sessionStartTime t /\
  t1 = mkScreenTimer RUNNING (_totalAllowanceSeconds t0)
         (_consumedTodaySeconds t) (_sessionStartTime t) /\
  fst (stop 0 now2 t1) = U32.wrap (now2 - _sessionStartTime t) /\
  _consumedTodaySeconds (snd (stop 0 now2 t1))
  = U32.add (_consumedTodaySeconds t)
      (U32.wrap (now2 - _sessionStartTime t)) /\
  (0 <= _consumedTodaySeconds t ->
   U32.in_range (_consumedTodaySeconds t + (now2 - _sessionStartTime t)) ->
   e1 = tsnap - _sessionStartTime t /\
   getTotalConsumedSeconds tsnap t = consumedTodaySeconds s + e1 /\
   fst (stop 0 now2 t1) = e1 + e2 /\
   _consumedTodaySeconds (snd (stop 0 now2 t1))
   = _consumedTodaySeconds t + e1 + e2).
Proof.
  intros Hrun Hpos Hsnap H1 H2 Hok s t1 e1 e2.
  assert (Hrestore :
            restoreFromSnapshot s wd now1 t0
            = startFromTimestamp (_sessionStartTime t) now1
                (setConsumedTodaySeconds (_consumedTodaySeconds t) t0)).
  { apply (restore_running_snapshot s wd now1 t0); auto. }
  assert (Et1 : t1 = mkScreenTimer RUNNING (_totalAllowanceSeconds t0)
                       (_consumedTodaySeconds t) (_sessionStartTime t)).
  { unfold t1. fold s in Hok. rewrite Hrestore in *.
    unfold startFromTimestamp in *.
    rewrite setConsumed_allowance, setConsumed_consumed in *.
    destruct (_ <=? _); [discriminate Hok|]. fields.
    now rewrite corrected_start_past by lia. }
  assert (Hcur : calculateCurrentSessionSeconds now2 t1
                 = U32.wrap (now2 - _sessionStartTime t)).
  { rewrite Et1. rewrite current_session_running; fields;
      try reflexivity; lia. }
  assert (Hstop : stop 0 now2 t1
                  = (U32.wrap (now2 - _sessionStartTime t),
                     mkScreenTimer STOPPED (_totalAllowanceSeconds t0)
                       (U32.add (_consumedTodaySeconds t)
                          (U32.wrap (now2 - _sessionStartTime t))) 0)).
  { rewrite stop_running by now rewrite Et1.
    rewrite Hcur. rewrite Et1. reflexivity. }
  split; [reflexivity|]. split; [reflexivity|]. split; [exact Et1|].
  rewrite Hstop. fields.
  split; [reflexivity|]. split; [reflexivity|].
  intros Hc Hfit.
  assert (He1 : e1 = tsnap - _sessionStartTime t).
  { unfold e1, getCurrentSessionSeconds.
    rewrite current_session_running by (auto; lia).
    apply U32Facts.wrap_small. u32_range. }
  assert (Htot : getTotalConsumedSeconds tsnap t
                 = consumedTodaySeconds s + e1).
  { rewrite He1. apply total_consumed_running; auto; try lia. u32_range. }
  rewrite He1 in *. unfold e2.
  rewrite (U32Facts.wrap_small (now2 - _sessionStartTime t)) by u32_range.
  rewrite U32Facts.add_small by exact Hfit.
  split; [reflexivity|]. split; [exact Htot|]. split; lia.
Qed.

(** Allowance one hour, 600 seconds consumed by earlier sessions, a session
    running since 1700000000; snapshot 50 seconds in, restored at once,
    stopped 70 seconds later: 600 + 50 + 70 consumed. *)
Lemma snapshot_restore_counts_session_once_witness :
  let t := mkScreenTimer RUNNING 3600 600 1700000000 in
  let t1 := snd (restoreFromSnapshot (createSnapshot 3 t) 3 1700000050
                   (begin 3600 0 ScreenTimer_new)) in
  fst (stop 0 1700000120 t1) = 50 + 70 /\
  _consumedTodaySeconds (snd (stop 0 1700000120 t1)) = 600 + 50 + 70.
Proof.
  intros t t1.
  destruct (snapshot_restore_counts_session_once t
              (begin 3600 0 ScreenTimer_new) 3 1700000050 1700000050
              1700000120)
    as (_ & _ & _ & _ & _ & Hexact).
  - reflexivity.
  - unfold t. cbn. lia.
  - unfold t. cbn. lia.
  - lia.
  - lia.
  - vm_compute. reflexivity.
  - destruct Hexact as (He1 & _ & Hret & Hcons).
    + unfold t. cbn. lia.
    + unfold t, U32.in_range, U32.modulus. cbn. lia.
    + split.
      * etransitivity; [exact Hret|]. rewrite He1. reflexivity.
      * etransitivity; [exact Hcons|]. rewrite He1. reflexivity.
Defined.

(** ** Expiry is read from the state *)

(** C8, as the claim states it, fails in its second half: [update()] is not
    the only operation that takes a running timer to [EXPIRED].  Allowance
    100, a session running since 1000, clock at 1100 with no [update()]
    since: [isExpired()] is false; a [start()] now finds nothing remaining
    and sets the state to [EXPIRED], and so does
    [setConsumedTodaySeconds(100)]; [isExpired()] is then true although
    [update()] was never called. *)
Lemma running_to_expired_without_update :
  let t := mkScreenTimer RUNNING 100 0 1000 in
  _state t = RUNNING /\
  isExpired t = false /\
  _state (exec CStart 1100 t) = EXPIRED /\
  isExpired (exec CStart 1100 t) = true /\
  CStart <> CUpdate /\
  _state (exec (CSetConsumedTodaySeconds 100) 1100 t) = EXPIRED /\
  ~ (forall (c : Call) (now : time_t) (t : ScreenTimer),
        _state t = RUNNING -> _state (exec c now t) = EXPIRED -> c = CUpdate).
Proof.
  cbv zeta. repeat split; try reflexivity; try discriminate.
  intros H.
  specialize (H CStart 1100 (mkScreenTimer RUNNING 100 0 1000)
                eq_refl eq_refl).
  discriminate H.
Qed.

(** C8, amended ([isExpired()] is a pure state read).  [isExpired()] is
    true exactly when the state is [EXPIRED]; its value depends on the state
    field alone, neither on the clock nor on the counters, so it never
    recomputes the remaining time (and, a const member function, it returns
    no changed timer).  On a running timer it is false at every clock
    reading, also once the wall clock has passed the allowance and the
    remaining time computes to 0; the [update()] tick then makes it true.
    The operations that can take a running timer to [EXPIRED] are the
    mutating ones with an expiry guard of their own: [update], [start],
    [startFromTimestamp], [begin], [setConsumedTodaySeconds] and
    [setAllowance]; [reset], [stop], [abortSession], [toggle] and
    [addAllowance] never do.  Each of the six performs the transition
    exactly when its own guard holds, and each guard does hold on some
    running timer: all six take the timer running since 1000 with allowance
    100 and 50 consumed to [EXPIRED] at clock 1100. *)
Theorem isExpired_reads_state_only :
  (forall t, isExpired t = true <-> _state t = EXPIRED) /\
  (forall t t', _state t = _state t' -> isExpired t = isExpired t') /\
  (forall (now : time_t) (t : ScreenTimer),
      _state t = RUNNING ->
      isExpired t = false /\
      (calculateRemainingSeconds now t = 0 ->
       isExpired (update now t) = true)) /\
  (forall (c : Call) (now : time_t) (t : ScreenTimer),
      _state t = RUNNING ->
      _state (exec c now t) = EXPIRED ->
      may_expire c = true) /\
  (forall (c : Call) (now : time_t) (t : ScreenTimer),
      _state t = RUNNING ->
      (_state (exec c now t) = EXPIRED <-> expiry_guard c now t = true)) /\
  (forall (c : Call) (now : time_t) (t : ScreenTimer),
      may_expire c = false ->
      _state t = RUNNING ->
      _state (exec c now t) <> EXPIRED) /\
  (let t := mkScreenTimer RUNNING 100 50 1000 in
   _state t = RUNNING /\
   _state (exec CUpdate 1100 t) = EXPIRED /\
   _state (exec CStart 1100 t) = EXPIRED /\
   _state (exec (CStartFromTimestamp 1000) 1100 t) = EXPIRED /\
   _state (exec (CBegin 100 100) 1100 t) = EXPIRED /\
   _state (exec (CSetConsumedTodaySeconds 100) 1100 t) = EXPIRED /\
   _state (exec (CSetAllowance 50) 1100 t) = EXPIRED).
Proof.
  assert (Hexact : forall (c : Call) (now : time_t) (t : ScreenTimer),
             _state t = RUNNING ->
             (_state (exec c now t) = EXPIRED <-> expiry_guard c now t = true)).
  { intros c now t Hrun.
    destruct c; cbn [exec expiry_guard].
    - unfold begin. fields. destruct (_ <=? _); split; congruence.
    - unfold reset. fields. split; discriminate.
    - unfold start. rewrite Hrun. cbn [TimerState_eqb negb].
      destruct (_ =? 0); fields; [split; reflexivity|].
      rewrite Hrun. split; discriminate.
    - unfold startFromTimestamp.
      destruct (_ <=? _); fields; split; congruence.
    - rewrite stop_running by exact Hrun. fields. split; discriminate.
    - unfold abortSession. rewrite Hrun. cbn [TimerState_eqb]. fields.
      split; discriminate.
    - unfold toggle. rewrite Hrun. cbn [TimerState_eqb].
      rewrite stop_running by exact Hrun. fields. split; discriminate.
    - rewrite update_running by exact Hrun.
      destruct (_ =? 0); fields; [split; reflexivity|].
      rewrite Hrun. split; discriminate.
    - unfold setConsumedTodaySeconds. rewrite Hrun. cbn [TimerState_eqb].
      destruct (_ <=? _); fields; split; congruence.
    - unfold setAllowance.
      destruct (_ =? 0); cbn [negb andb];
        [rewrite Hrun; split; discriminate|].
      rewrite Hrun. cbn [TimerState_eqb].
      destruct (_ <=? _); fields; split; congruence.
    - unfold addAllowance. fields. rewrite Hrun.
      cbn [TimerState_eqb andb]. fields. split; discriminate. }
  split; [|split; [|split; [|split; [|split; [|split]]]]].
  - intros t. unfold isExpired. apply TimerState_eqb_eq.
  - intros t t' H. unfold isExpired. now rewrite H.
  - intros now t Hrun. split.
    + unfold isExpired. now rewrite Hrun.
    + intros Hrem. rewrite update_running by exact Hrun. now rewrite Hrem.
  - intros c now t Hrun Hexp.
    destruct c; try reflexivity; exfalso; cbn [exec] in Hexp.
    + discriminate Hexp.
    + rewrite stop_running in Hexp by exact Hrun. discriminate Hexp.
    + unfold abortSession in Hexp. rewrite Hrun in Hexp. discriminate Hexp.
    + unfold toggle in Hexp. rewrite Hrun in Hexp. cbn [TimerState_eqb] in Hexp.
      rewrite stop_running in Hexp by exact Hrun. discriminate Hexp.
    + unfold addAllowance in Hexp. fields. rewrite Hrun in Hexp.
      cbn [TimerState_eqb andb] in Hexp. fields. congruence.
  - exact Hexact.
  - intros c now t Hno Hrun Hexp.
    apply (Hexact c now t Hrun) in Hexp.
    destruct c; cbn [may_expire expiry_guard] in *; discriminate.
  - cbv zeta. repeat split.
Qed.

(** A session that has outlived its allowance of 100 seconds by 50, not yet
    ticked: not expired for [isExpired()], expired by the next [update()]. *)
Lemma isExpired_reads_state_only_witness :
  isExpired (mkScreenTimer RUNNING 100 0 1000) = false /\
  isExpired (update 1150 (mkScreenTimer RUNNING 100 0 1000)) = true.
Proof.
  destruct isExpired_reads_state_only as (_ & _ & Hrun & _).
  destruct (Hrun 1150 (mkScreenTimer RUNNING 100 0 1000) eq_refl) as [H1 H2].
  split; [exact H1|]. apply H2. vm_compute. reflexivity.
Defined.

(** ** The elapsed-time subtraction never underflows *)

(** C10 (no underflow of the session's elapsed time).
    [startFromTimestamp] called with a timestamp later than the clock uses
    the clock reading instead: the elapsed time it computes is 0, it behaves
    as if called with [now], and the session it resumes has elapsed 0.
    [calculateCurrentSessionSeconds] returns 0 whenever [now <=
    sessionStartTime] or the timer is not running.  Both functions subtract
    timestamps only behind these guards: with the subtraction made to fail on
    a negative difference they never fail, and return what the functions
    return. *)
Theorem session_elapsed_never_underflows :
  (forall (ts now : time_t) (t : ScreenTimer),
      now < ts ->
      correctedStartTime ts now = now /\
      sessionElapsed ts now = 0 /\
      startFromTimestamp ts now t = startFromTimestamp now now t /\
      (fst (startFromTimestamp ts now t) = true ->
       _sessionStartTime (snd (startFromTimestamp ts now t)) = now /\
       calculateCurrentSessionSeconds now (snd (startFromTimestamp ts now t))
       = 0)) /\
  (forall (now : time_t) (t : ScreenTimer),
      now <= _sessionStartTime t \/ _state t <> RUNNING ->
      calculateCurrentSessionSeconds now t = 0) /\
  (forall (ts now : time_t),
      0 <= now - correctedStartTime ts now /\
      sessionElapsed_checked ts now = Some (sessionElapsed ts now)) /\
  (forall (now : time_t) (t : ScreenTimer),
      calculateCurrentSessionSeconds_checked now t
      = Some (calculateCurrentSessionSeconds now t)).
Proof.
  split; [|split; [|split]].
  - intros ts now t Hfut.
    assert (Ec : correctedStartTime ts now = now)
      by now apply corrected_start_future.
    assert (Ee : sessionElapsed ts now = 0).
    { unfold sessionElapsed. rewrite Ec, Z.sub_diag. reflexivity. }
    assert (Es : startFromTimestamp ts now t = startFromTimestamp now now t).
    { unfold startFromTimestamp, sessionElapsed.
      rewrite Ec, (corrected_start_past now now) by lia. reflexivity. }
    repeat split; auto.
    + unfold startFromTimestamp in *. destruct (_ <=? _); [discriminate|].
      fields. exact Ec.
    + unfold startFromTimestamp in *. destruct (_ <=? _); [discriminate|].
      fields. rewrite Ec. unfold calculateCurrentSessionSeconds. fields.
      cbn [TimerState_eqb negb orb].
      destruct (now =? 0); [reflexivity|]. now rewrite Z.leb_refl.
  - intros now t [Hle|Hst].
    + unfold calculateCurrentSessionSeconds.
      destruct (_ || _); [reflexivity|].
      apply Z.leb_le in Hle. now rewrite Hle.
    + now apply current_session_not_running.
  - intros ts now. unfold sessionElapsed_checked, elapsed_checked,
      sessionElapsed, correctedStartTime.
    destruct (Z.ltb_spec now ts).
    + rewrite Z.ltb_irrefl. split; [lia|reflexivity].
    + destruct (Z.ltb_spec now ts); [lia|]. split; [lia|reflexivity].
  - intros now t.
    unfold calculateCurrentSessionSeconds_checked,
      calculateCurrentSessionSeconds, elapsed_checked.
    destruct (_ || _); [reflexivity|].
    destruct (Z.leb_spec now (_sessionStartTime t)); [reflexivity|].
    destruct (Z.ltb_spec now (_sessionStartTime t)); [lia|reflexivity].
Qed.

(** A snapshot timestamp one hour ahead of the clock: the session resumes
    from the clock reading with nothing elapsed. *)
Lemma session_elapsed_never_underflows_witness :
  startFromTimestamp 1700003600 1700000000 (begin 3600 0 ScreenTimer_new)
  = (true, mkScreenTimer RUNNING 3600 0 1700000000) /\
  sessionElapsed 1700003600 1700000000 = 0.
Proof.
  destruct session_elapsed_never_underflows as (Hfut & _).
  destruct (Hfut 1700003600 1700000000 (begin 3600 0 ScreenTimer_new))
    as (_ & He & Hs & _).
  - lia.
  - split; [|exact He]. rewrite Hs. vm_compute. reflexivity.
Defined.

(** ** The invariant [state == Running <-> sessionStartTime != 0] *)

(** Away from three situations the operations keep the invariant: the clock
    reads 0 (the timestamp of a session would be the "no session" value),
    [startFromTimestamp(0)], and [start()] on a running session that has
    used up the allowance. *)
Lemma session_inv_preserved (c : Call) (now : time_t) (t : ScreenTimer) :
  session_inv t ->
  now <> 0 ->
  (forall ts, c = CStartFromTimestamp ts -> ts <> 0) ->
  (c = CStart -> _state t = RUNNING -> calculateRemainingSeconds now t <> 0) ->
  session_inv (exec c now t).
Proof.
  intros Hinv Hnow Hts Hstart.
  destruct c; cbn [exec].
  - unfold begin. inv_cases.
  - unfold reset. inv_cases.
  - destruct (TimerState_eqb (_state t) RUNNING) eqn:Hr.
    + apply TimerState_eqb_eq in Hr.
      rewrite start_already_running; auto.
    + apply TimerState_eqb_neq in Hr.
      unfold start. rewrite (proj2 (TimerState_eqb_neq _ _) Hr).
      cbn [negb]. inv_cases.
  - specialize (Hts sessionStartTime0 eq_refl).
    unfold startFromTimestamp, correctedStartTime. inv_cases.
  - unfold stop. inv_cases.
  - unfold abortSession. inv_cases.
  - unfold toggle.
    destruct (TimerState_eqb (_state t) RUNNING) eqn:Hr.
    + apply TimerState_eqb_eq in Hr. rewrite stop_running by exact Hr.
      inv_cases.
    + unfold start. rewrite Hr. cbn [negb].
      apply TimerState_eqb_neq in Hr. inv_cases.
  - unfold update. inv_cases.
  - unfold setConsumedTodaySeconds.
    destruct (_ <=? _); [inv_cases|].
    destruct (TimerState_eqb _ _) eqn:He; [|inv_cases].
    apply TimerState_eqb_eq in He. inv_cases.
  - unfold setAllowance.
    destruct (_ =? _); [exact Hinv|].
    destruct (_ <=? _); [inv_cases|].
    destruct (TimerState_eqb _ _) eqn:He; [|inv_cases].
    apply TimerState_eqb_eq in He. inv_cases.
  - unfold addAllowance. fields.
    destruct (TimerState_eqb _ _) eqn:He; cbn [andb]; [|inv_cases].
    apply TimerState_eqb_eq in He. inv_cases.
Qed.

(** C6 (the invariant is not kept by [start()]).  A timer that satisfies the
    invariant, running since 1000 with allowance 100, receives [start()] at
    clock 1100, before any [update()]: nothing remains, the state becomes
    [EXPIRED], and [sessionStartTime] keeps the value 1000 where every other
    expiry path of the class writes 0.  The timer is no longer running and
    [getSessionStartTime()] is not 0; a [stop()] after that returns 0 and
    commits nothing of the session. *)
Theorem start_on_exhausted_session_breaks_invariant :
  let t := mkScreenTimer RUNNING 100 0 1000 in
  session_inv t /\
  start 1100 t = (false, mkScreenTimer EXPIRED 100 0 1000) /\
  isRunning (exec CStart 1100 t) = false /\
  getSessionStartTime (exec CStart 1100 t) = 1000 /\
  ~ session_inv (exec CStart 1100 t) /\
  update 1100 t = mkScreenTimer EXPIRED 100 100 0 /\
  stop 0 1200 (exec CStart 1100 t) = (0, exec CStart 1100 t).
Proof.
  cbv zeta.
  split; [unfold session_inv; fields; split; [discriminate|reflexivity]|].
  split; [reflexivity|]. split; [reflexivity|]. split; [reflexivity|].
  split; [|split; reflexivity].
  change (exec CStart 1100 (mkScreenTimer RUNNING 100 0 1000))
    with (mkScreenTimer EXPIRED 100 0 1000).
  unfold session_inv. fields. intros [_ H].
  assert (E : EXPIRED = RUNNING) by (apply H; discriminate).
  discriminate E.
Qed.

(** ** Conservation of consumed time *)

Section Simulation.

(** The allowance, and the first clock reading of the sequence. *)
Variable A : Z.
Variable base : time_t.
Hypothesis A_range : U32.in_range A.
Hypothesis base_after_epoch : 0 < base.

(** One call keeps the agreement (ledger with the charge of an expired
    session capped at the allowance). *)
Lemma tracks_step last c now t l :
  last <= now < base + U32.modulus ->
  conservation_call c = true ->
  (c = CStart -> isRunning t = true ->
   calculateRemainingSeconds now t <> 0) ->
  tracks A base last t l ->
  tracks A base now (exec c now t) (ledger_step true A c now l).
Proof.
  intros Hnow Hc Hbudget (Ha & Hcons & Hpos & Hopen).
  pose proof A_range as HA. pose proof base_after_epoch as Hbase.
  destruct l as [[s|] ch]; cbn [open_since charged] in *.
  - (* a session is open since [s] *)
    destruct Hopen as (Hrun & Hs & Hsb & Hch).
    assert (Hz : _sessionStartTime t <> 0) by lia.
    assert (Hle : _sessionStartTime t <= now) by lia.
    assert (Hc0 : 0 <= _consumedTodaySeconds t) by lia.
    assert (Hfit : U32.in_range
                     (_consumedTodaySeconds t + (now - _sessionStartTime t)))
      by u32_range.
    destruct c; try discriminate Hc; cbn [exec ledger_step open_since charged].
    + (* start() on the running session *)
      rewrite start_already_running;
        [|apply Hbudget; [reflexivity|unfold isRunning; now rewrite Hrun]
         |exact Hrun].
      unfold tracks; cbn [open_since charged fst snd]. repeat split; auto; lia.
    + (* stop(0) *)
      cbn [conservation_call] in Hc. apply Z.eqb_eq in Hc. subst minimumDuration.
      rewrite stop_running by exact Hrun.
      rewrite (current_session_running now t Hrun Hz Hle).
      rewrite (U32Facts.wrap_small (now - _sessionStartTime t)) by u32_range.
      change (0 <? 0) with false. cbn [andb].
      rewrite U32Facts.add_small by exact Hfit.
      unfold tracks; fields; cbn [open_since charged].
      repeat split; try lia. discriminate.
    + (* update() *)
      rewrite update_running by exact Hrun.
      rewrite (remaining_running now t Hrun Hz Hle Hc0 Hfit).
      rewrite Ha, Hcons, Hs.
      destruct (Z.leb_spec A (ch + (now - s))) as [Hexp|Hleft].
      * replace (Z.max 0 (A - (ch + (now - s)))) with 0 by lia.
        change (0 =? 0) with true. cbv iota.
        unfold tracks; fields; cbn [open_since charged].
        unfold U32.in_range in HA.
        repeat split; try lia. discriminate.
      * destruct (Z.eqb_spec (Z.max 0 (A - (ch + (now - s)))) 0); [lia|].
        unfold tracks; cbn [open_since charged]. repeat split; auto; lia.
  - (* no session is open *)
    destruct Hopen as (Hnrun & Hch).
    assert (Hwf : wf t).
    { split; [now rewrite Ha|]. rewrite Hcons. u32_range. }
    destruct c; try discriminate Hc; cbn [exec ledger_step open_since charged].
    + (* start() *)
      pose proof (remaining_not_running now t Hwf Hnrun) as Hrem.
      rewrite Ha, Hcons in Hrem.
      destruct (Z.ltb_spec ch A) as [Hlt|Hge].
      * rewrite start_accepted by (try exact Hnrun; lia).
        unfold tracks; fields; cbn [open_since charged].
        repeat split; auto; lia.
      * rewrite start_refused by lia.
        unfold tracks; fields; cbn [open_since charged].
        repeat split; auto; try lia. discriminate.
    + (* stop(0) *)
      rewrite stop_not_running by exact Hnrun.
      unfold tracks; fields; cbn [open_since charged]. repeat split; auto; lia.
    + (* update() *)
      rewrite update_not_running by exact Hnrun.
      unfold tracks; cbn [open_since charged]. repeat split; auto; lia.
Qed.

Lemma starts_in_budget_head c now tr t :
  starts_in_budget ((c, now) :: tr) t = true ->
  (c = CStart -> isRunning t = true ->
   calculateRemainingSeconds now t <> 0) /\
  starts_in_budget tr (exec c now t) = true.
Proof.
  cbn [starts_in_budget]. intros H. apply andb_prop in H as [H1 H2].
  split; [|exact H2].
  intros -> Hrun. rewrite Hrun in H1. cbn [negb orb] in H1.
  apply negb_true_iff, Z.eqb_neq in H1. exact H1.
Qed.

Lemma tracks_run tr :
  forall last t l,
    Forall (fun ev => conservation_call (fst ev) = true) tr ->
    chronological last (base + U32.modulus) tr = true ->
    starts_in_budget tr t = true ->
    last < base + U32.modulus ->
    tracks A base last t l ->
    exists last',
      last' < base + U32.modulus /\
      tracks A base last' (run tr t) (ledger_run true A tr l).
Proof.
  induction tr as [|[c now] tr IH];
    intros last t l Hcalls Hchr Hbud Hlast Htr.
  - exists last. split; [exact Hlast|exact Htr].
  - inversion Hcalls as [|ev tr' Hc Hcalls']; subst.
    cbn [chronological] in Hchr.
    apply andb_prop in Hchr as [Hchr Hrest].
    apply andb_prop in Hchr as [Hlo Hhi].
    apply Z.leb_le in Hlo. apply Z.ltb_lt in Hhi.
    apply starts_in_budget_head in Hbud as [Hb Hbud'].
    cbn [run ledger_run].
    apply (IH now); auto.
    apply (tracks_step last); auto.
Qed.

End Simulation.

(** On such sequences capping changes nothing. *)
Lemma ledger_run_on_time A tr : forall l,
  updates_on_time A tr l = true ->
  ledger_run true A tr l = ledger_run false A tr l.
Proof.
  induction tr as [|[c now] tr IH]; intros l H; [reflexivity|].
  cbn [updates_on_time] in H. apply andb_prop in H as [H1 H2].
  cbn [ledger_run].
  assert (E : ledger_step true A c now l = ledger_step false A c now l).
  { destruct c; try reflexivity.
    unfold ledger_step. destruct (open_since l) as [s|]; [|reflexivity].
    apply Z.leb_le in H1.
    destruct (Z.leb_spec A (charged l + (now - s))); [|reflexivity].
    f_equal. lia. }
  rewrite E. now apply IH.
Qed.

(** C3, as the claim states it, fails: allowance 100, [start()] at clock
    1000, one [update()] at 1150.  The session is over (the timer is
    [EXPIRED]), it lasted 150 seconds by the wall clock, and
    [consumedTodaySeconds] is 100: [update()] finalises the consumed total
    to the allowance. *)
Lemma late_update_charges_allowance_only :
  let tr := [(CStart, 1000); (CUpdate, 1150)] in
  Forall (fun ev => conservation_call (fst ev) = true) tr /\
  chronological 1000 (1000 + U32.modulus) tr = true /\
  starts_in_budget tr (begin 100 0 ScreenTimer_new) = true /\
  run tr (begin 100 0 ScreenTimer_new) = mkScreenTimer EXPIRED 100 100 0 /\
  ledger_run false 100 tr (mkLedger None 0) = mkLedger None 150 /\
  ~ conservation false 100 tr.
Proof.
  cbv zeta.
  split; [repeat constructor|].
  split; [reflexivity|]. split; [reflexivity|].
  split; [reflexivity|]. split; [reflexivity|].
  unfold conservation.
  change (run [(CStart, 1000); (CUpdate, 1150)] (begin 100 0 ScreenTimer_new))
    with (mkScreenTimer EXPIRED 100 100 0).
  change (ledger_run false 100 [(CStart, 1000); (CUpdate, 1150)]
            (mkLedger None 0))
    with (mkLedger None 150).
  cbn [isRunning _state TimerState_eqb _consumedTodaySeconds charged].
  intros H. destruct (H eq_refl) as [E _]. discriminate E.
Qed.

(** C3, amended (conservation).  Take any sequence of [start()], [update()]
    and [stop(0)] calls on a timer initialised with [begin(A, 0)], at clock
    readings that never go back, start after the epoch and span less than
    2^32 seconds, in which [start()] is not called on a running session that
    has already used up the allowance.  Once no session is running,
    [consumedTodaySeconds] is the sum of the sessions' charges, where a
    session ended by [stop(0)] is charged its wall-clock duration and a
    session ended by [update()] on expiry is charged the allowance that was
    left (the total becomes [A]); and [calculateRemainingSeconds()] is [A]
    minus the consumed total, clamped at 0.  When in addition every
    [update()] that ends a session arrives no later than the second the
    allowance runs out, every session is charged its full wall-clock
    duration. *)
Theorem consumed_is_sum_of_session_charges
    (A : Z) (base : time_t) (tr : list Event) :
  U32.in_range A ->
  0 < base ->
  Forall (fun ev => conservation_call (fst ev) = true) tr ->
  chronological base (base + U32.modulus) tr = true ->
  starts_in_budget tr (begin A 0 ScreenTimer_new) = true ->
  conservation true A tr /\
  (updates_on_time A tr (mkLedger None 0) = true -> conservation false A tr).
Proof.
  intros HA Hbase Hcalls Hchr Hbud.
  assert (Hcap : conservation true A tr).
  { unfold conservation. intros Hnot.
    destruct (tracks_run A base HA Hbase tr base
                (begin A 0 ScreenTimer_new) (mkLedger None 0)
                Hcalls Hchr Hbud)
        as (last' & Hlast & Ha & Hcons & Hpos & Hopen).
    - unfold U32.modulus. lia.
    - unfold tracks, begin; fields; cbn [open_since charged].
      repeat split; try lia. destruct (A <=? 0); discriminate.
    - split; [exact Hcons|].
      intros now.
      assert (Hnrun : _state (run tr (begin A 0 ScreenTimer_new)) <> RUNNING)
        by now apply TimerState_eqb_neq.
      destruct (open_since _) as [s|].
      + destruct Hopen as (Hrun & _). contradiction.
      + destruct Hopen as (_ & Hch).
        rewrite remaining_not_running; [now rewrite Ha| |exact Hnrun].
        split; [now rewrite Ha|]. rewrite Hcons. u32_range. }
  split; [exact Hcap|].
  intros Htime. unfold conservation in *.
  rewrite <- (ledger_run_on_time A tr (mkLedger None 0) Htime).
  exact Hcap.
Qed.

(** Allowance one hour.  Two sessions, of 600 and 300 seconds, with ticks in
    between: 900 seconds consumed, 2700 remaining. *)
Lemma consumed_is_sum_of_session_charges_witness :
  let tr := [(CStart, 1700000000); (CUpdate, 1700000010);
             (CStop 0, 1700000600); (CUpdate, 1700000700);
             (CStart, 1700001000); (CUpdate, 1700001299);
             (CStop 0, 1700001300)] in
  _consumedTodaySeconds (run tr (begin 3600 0 ScreenTimer_new)) = 600 + 300 /\
  calculateRemainingSeconds 1700001400 (run tr (begin 3600 0 ScreenTimer_new))
  = 2700.
Proof.
  intros tr.
  destruct (consumed_is_sum_of_session_charges 3600 1700000000 tr)
    as [_ Hfull].
  - unfold U32.in_range, U32.modulus. lia.
  - lia.
  - repeat constructor.
  - vm_compute. reflexivity.
  - vm_compute. reflexivity.
  - destruct (Hfull eq_refl eq_refl) as [Hc Hr].
    split.
    + etransitivity; [exact Hc|]. vm_compute. reflexivity.
    + etransitivity; [apply Hr|]. vm_compute. reflexivity.
Defined.

(** * Further properties of the timer *)

(** ** What the boolean results mean *)

(** X1.  [start()], [startFromTimestamp()] and [toggle()] return true
    exactly when the timer is running after the call: a refusal always
    leaves a timer that is not running, also when the call is made on a
    session that was running. *)
Theorem start_results_tell_running
    (ts now : time_t) (t : ScreenTimer) :
  fst (start now t) = isRunning (snd (start now t)) /\
  fst (startFromTimestamp ts now t)
  = isRunning (snd (startFromTimestamp ts now t)) /\
  fst (toggle now t) = isRunning (snd (toggle now t)).
Proof.
  assert (Hstart : forall u, fst (start now u) = isRunning (snd (start now u))).
  { intros u. unfold start, isRunning.
    destruct (_ =? 0); [reflexivity|].
    destruct (TimerState_eqb (_state u) RUNNING) eqn:E; cbn [negb fst snd].
    - now rewrite E.
    - reflexivity. }
  split; [apply Hstart|]. split.
  - unfold startFromTimestamp, isRunning. now destruct (_ <=? _).
  - unfold toggle.
    destruct (TimerState_eqb (_state t) RUNNING) eqn:E; [|apply Hstart].
    apply TimerState_eqb_eq in E. now rewrite stop_running.
Qed.

(** ** A forgotten session *)

(** X2.  Whenever [start()] returns true, an [abortSession()] after it, at
    whatever time, leaves a stopped timer with the allowance and the
    consumed total of before the start and no start timestamp: the session
    costs nothing, [getTotalConsumedSeconds()] is the completed total again at
    every clock reading, and the next [stop()] has nothing to commit. *)
Theorem abort_after_start_is_invisible (now : time_t) (t : ScreenTimer) :
  fst (start now t) = true ->
  let t' := abortSession (snd (start now t)) in
  t' = mkScreenTimer STOPPED (_totalAllowanceSeconds t)
         (_consumedTodaySeconds t) 0 /\
  (forall n, getCurrentSessionSeconds n t' = 0) /\
  (forall n, U32.in_range (_consumedTodaySeconds t) ->
             getTotalConsumedSeconds n t' = _consumedTodaySeconds t) /\
  (forall m n, stop m n t' = (0, t')).
Proof.
  intros Hok t'.
  assert (Et : t' = mkScreenTimer STOPPED (_totalAllowanceSeconds t)
                      (_consumedTodaySeconds t) 0).
  { unfold t', start in *.
    destruct (_ =? 0); [discriminate Hok|].
    destruct (TimerState_eqb (_state t) RUNNING) eqn:E; cbn [negb fst snd].
    - unfold abortSession. now rewrite E.
    - reflexivity. }
  split; [exact Et|]. rewrite Et.
  split; [intros n; reflexivity|].
  split; [|intros m n; reflexivity].
  intros n Hc. unfold getTotalConsumedSeconds.
  rewrite current_session_not_running by (fields; discriminate).
  fields. now apply U32Facts.add_0_r.
Qed.

Lemma abort_after_start_is_invisible_witness :
  abortSession (snd (start 1700000000 (mkScreenTimer STOPPED 3600 600 0)))
  = mkScreenTimer STOPPED 3600 600 0.
Proof.
  destruct (abort_after_start_is_invisible 1700000000
              (mkScreenTimer STOPPED 3600 600 0)) as [H _].
  - vm_compute. reflexivity.
  - exact H.
Defined.

(** ** Bounds of the remaining time *)

(** X3.  On a timer whose counters are [uint32_t], the remaining time is
    never negative and never above the allowance; it is 0 exactly when the
    total consumed (completed sessions plus the session in flight) has
    reached the allowance, and otherwise remaining plus total consumed is the
    allowance. *)
Theorem remaining_is_allowance_minus_consumed
    (now : time_t) (t : ScreenTimer) :
  wf t ->
  0 <= calculateRemainingSeconds now t <= _totalAllowanceSeconds t /\
  (calculateRemainingSeconds now t = 0 <->
   _totalAllowanceSeconds t <= getTotalConsumedSeconds now t) /\
  (calculateRemainingSeconds now t <> 0 ->
   calculateRemainingSeconds now t + getTotalConsumedSeconds now t
   = _totalAllowanceSeconds t).
Proof.
  intros [Ha Hc].
  pose proof (U32Facts.add_in_range (_consumedTodaySeconds t)
                (calculateCurrentSessionSeconds now t)) as Ht.
  fold (getTotalConsumedSeconds now t) in Ht.
  unfold calculateRemainingSeconds.
  destruct (Z.leb_spec (_totalAllowanceSeconds t)
              (getTotalConsumedSeconds now t));
    unfold U32.in_range in *; repeat split; intros; lia.
Qed.

Lemma remaining_is_allowance_minus_consumed_witness :
  0 <= calculateRemainingSeconds 1700000100
         (mkScreenTimer RUNNING 3600 600 1700000000) <= 3600.
Proof.
  apply (remaining_is_allowance_minus_consumed 1700000100
           (mkScreenTimer RUNNING 3600 600 1700000000)).
  unfold wf, U32.in_range, U32.modulus. cbn. lia.
Defined.

(** ** An expired timer has nothing left *)

Lemma remaining_zero_not_running now t :
  U32.in_range (_consumedTodaySeconds t) -> _state t <> RUNNING ->
  (calculateRemainingSeconds now t = 0 <->
   _totalAllowanceSeconds t <= _consumedTodaySeconds t).
Proof.
  intros Hc Hs. unfold calculateRemainingSeconds, getTotalConsumedSeconds.
  rewrite (current_session_not_running now t Hs), (U32Facts.add_0_r _ Hc).
  destruct (Z.leb_spec (_totalAllowanceSeconds t) (_consumedTodaySeconds t));
    split; intros; lia.
Qed.

Ltac ok_cases :=
  repeat match goal with
         | |- context [if ?b then _ else _] => destruct b eqn:?
         end;
  unfold timer_ok, wf in *; fields;
  repeat match goal with
         | H : (_ <=? _) = true |- _ => apply Z.leb_le in H
         | H : (_ <=? _) = false |- _ => apply Z.leb_gt in H
         | H : (_ <? _) = true |- _ => apply Z.ltb_lt in H
         | H : (_ <? _) = false |- _ => apply Z.ltb_ge in H
         | H : TimerState_eqb _ _ = true |- _ => apply TimerState_eqb_eq in H
         | H : TimerState_eqb _ _ = false |- _ => apply TimerState_eqb_neq in H
         end;
  try solve [intuition (first [ congruence | discriminate
                              | apply U32Facts.add_in_range | u32_range ])].

(** X4.  Every public operation of the timer, called with [uint32_t]
    arguments, keeps the counters within [uint32_t] and keeps "state
    [EXPIRED] implies consumed >= allowance", with one exception that is
    left out: [start()] on a running session that has used up its allowance.
    On such a timer an expired state means that nothing remains, at every
    clock reading. *)
Theorem expired_means_allowance_used_up
    (c : Call) (now : time_t) (t : ScreenTimer) :
  timer_ok t ->
  call_in_range c ->
  (c = CStart -> _state t = RUNNING -> calculateRemainingSeconds now t <> 0) ->
  timer_ok (exec c now t) /\
  (_state (exec c now t) = EXPIRED ->
   forall n, calculateRemainingSeconds n (exec c now t) = 0).
Proof.
  intros Hok Hargs Hstart.
  assert (Hkeep : timer_ok (exec c now t)).
  { destruct c; cbn [exec call_in_range] in *.
    - unfold begin. ok_cases.
    - unfold reset. ok_cases.
    - destruct (TimerState_eqb (_state t) RUNNING) eqn:Hr.
      + apply TimerState_eqb_eq in Hr.
        rewrite start_already_running; auto.
      + apply TimerState_eqb_neq in Hr.
        destruct (Z.eq_dec (calculateRemainingSeconds now t) 0) as [E|E].
        * rewrite start_refused by exact E.
          apply remaining_zero_not_running in E; [|apply Hok|exact Hr].
          ok_cases.
        * rewrite start_accepted by auto. ok_cases.
    - unfold startFromTimestamp. ok_cases.
    - unfold stop. ok_cases.
    - unfold abortSession. ok_cases.
    - unfold toggle.
      destruct (TimerState_eqb (_state t) RUNNING) eqn:Hr.
      + apply TimerState_eqb_eq in Hr. rewrite stop_running by exact Hr.
        ok_cases.
      + apply TimerState_eqb_neq in Hr.
        destruct (Z.eq_dec (calculateRemainingSeconds now t) 0) as [E|E].
        * rewrite start_refused by exact E.
          apply remaining_zero_not_running in E; [|apply Hok|exact Hr].
          ok_cases.
        * rewrite start_accepted by auto. ok_cases.
    - unfold update. ok_cases.
    - unfold setConsumedTodaySeconds. ok_cases.
    - unfold setAllowance. ok_cases.
    - unfold addAllowance. fields.
      destruct (TimerState_eqb (_state t) EXPIRED) eqn:He; cbn [andb].
      + apply TimerState_eqb_eq in He.
        destruct (0 <? _) eqn:Hrem.
        * ok_cases.
        * apply Z.ltb_ge in Hrem.
          destruct Hok as [[Ha Hc] _].
          split; [split; fields; [apply U32Facts.add_in_range|exact Hc]|].
          fields. intros _.
          set (t1 := mkScreenTimer (_state t)
                       (U32.add (_totalAllowanceSeconds t) additionalSeconds)
                       (_consumedTodaySeconds t) (_sessionStartTime t)) in *.
          assert (Hz : calculateRemainingSeconds now t1 = 0).
          { assert (0 <= calculateRemainingSeconds now t1); [|lia].
            unfold calculateRemainingSeconds.
            destruct (_ <=? _) eqn:E; [lia|]. apply Z.leb_gt in E. lia. }
          apply (remaining_zero_not_running now t1) in Hz;
            [exact Hz|exact Hc|unfold t1; fields; rewrite He; discriminate].
      + ok_cases. }
  split; [exact Hkeep|].
  intros Hexp n. destruct Hkeep as [[Ha Hc] Hinv].
  apply remaining_zero_not_running; auto.
  rewrite Hexp. discriminate.
Qed.

Lemma expired_means_allowance_used_up_witness :
  timer_ok (exec CUpdate 1700003600 (mkScreenTimer RUNNING 3600 0 1700000000)) /\
  calculateRemainingSeconds 1700009999
    (exec CUpdate 1700003600 (mkScreenTimer RUNNING 3600 0 1700000000)) = 0.
Proof.
  destruct (expired_means_allowance_used_up CUpdate 1700003600
              (mkScreenTimer RUNNING 3600 0 1700000000)) as [H1 H2].
  - unfold timer_ok, wf, U32.in_range, U32.modulus. cbn.
    repeat split; try lia. discriminate.
  - exact I.
  - discriminate.
  - split; [exact H1|]. apply H2. vm_compute. reflexivity.
Defined.

(** ** More time after expiry *)

(** X5.  When the tick has expired a running session and [d > 0] seconds
    are then added with [addAllowance(d)] (the new allowance fitting
    [uint32_t]), the timer is stopped, exactly [d] seconds remain at every
    clock reading, and [start()] is accepted again. *)
Theorem added_allowance_is_what_remains
    (d : Z) (now now' : time_t) (t : ScreenTimer) :
  wf t ->
  _state t = RUNNING ->
  calculateRemainingSeconds now t = 0 ->
  0 < d ->
  U32.in_range (_totalAllowanceSeconds t + d) ->
  let t' := addAllowance d now' (update now t) in
  t' = mkScreenTimer STOPPED (_totalAllowanceSeconds t + d)
         (_totalAllowanceSeconds t) 0 /\
  (forall n, calculateRemainingSeconds n t' = d) /\
  (forall n, start n t'
             = (true,
                mkScreenTimer RUNNING (_totalAllowanceSeconds t + d)
                  (_totalAllowanceSeconds t) n)).
Proof.
  intros [Ha Hc] Hrun Hrem Hd Hfit t'.
  assert (Hremaining : forall st n,
             st <> RUNNING ->
             calculateRemainingSeconds n
               (mkScreenTimer st (_totalAllowanceSeconds t + d)
                  (_totalAllowanceSeconds t) 0) = d).
  { intros st n Hst. rewrite remaining_not_running; fields; try lia; auto.
    split; fields; auto. }
  assert (Et : t' = mkScreenTimer STOPPED (_totalAllowanceSeconds t + d)
                      (_totalAllowanceSeconds t) 0).
  { unfold t'. rewrite (update_running now t Hrun), Hrem.
    change (0 =? 0) with true. cbv iota.
    unfold addAllowance. fields. cbn [TimerState_eqb andb].
    rewrite (U32Facts.add_small _ _ Hfit).
    rewrite (Hremaining EXPIRED now') by discriminate.
    apply Z.ltb_lt in Hd. now rewrite Hd. }
  split; [exact Et|]. rewrite Et.
  split; [intros n; apply Hremaining; discriminate|].
  intros n. rewrite start_accepted; fields; try reflexivity; try discriminate.
  rewrite Hremaining by discriminate. lia.
Qed.

Lemma added_allowance_is_what_remains_witness :
  calculateRemainingSeconds 1700005000
    (addAllowance 900 1700004000
       (update 1700003600 (mkScreenTimer RUNNING 3600 0 1700000000)))
  = 900.
Proof.
  destruct (added_allowance_is_what_remains 900 1700003600 1700004000
              (mkScreenTimer RUNNING 3600 0 1700000000)) as (_ & H & _).
  - unfold wf, U32.in_range, U32.modulus. cbn. lia.
  - reflexivity.
  - vm_compute. reflexivity.
  - lia.
  - unfold U32.in_range, U32.modulus. cbn. lia.
  - apply H.
Defined.

(** ** The remaining time follows the clock *)

(** X6.  While a session runs (start timestamp set and not after the clock,
    total consumed within [uint32_t]), the remaining time never grows as the
    clock advances, it drops by at most the seconds that passed, and by
    exactly that many as long as something remains. *)
Theorem remaining_follows_the_clock (now now' : time_t) (t : ScreenTimer) :
  wf t ->
  _state t = RUNNING ->
  _sessionStartTime t <> 0 ->
  _sessionStartTime t <= now <= now' ->
  U32.in_range (_consumedTodaySeconds t + (now' - _sessionStartTime t)) ->
  calculateRemainingSeconds now' t <= calculateRemainingSeconds now t /\
  calculateRemainingSeconds now t - calculateRemainingSeconds now' t
  <= now' - now /\
  (calculateRemainingSeconds now' t <> 0 ->
   calculateRemainingSeconds now t - calculateRemainingSeconds now' t
   = now' - now).
Proof.
  intros [Ha Hc] Hrun Hz Hord Hfit.
  rewrite (remaining_running now t), (remaining_running now' t);
    auto; try lia; try u32_range.
Qed.

Lemma remaining_follows_the_clock_witness :
  calculateRemainingSeconds 1700000100 (mkScreenTimer RUNNING 3600 600 1700000000)
  - calculateRemainingSeconds 1700000160 (mkScreenTimer RUNNING 3600 600 1700000000)
  = 1700000160 - 1700000100.
Proof.
  apply (remaining_follows_the_clock 1700000100 1700000160
           (mkScreenTimer RUNNING 3600 600 1700000000)).
  - unfold wf, U32.in_range, U32.modulus. cbn. lia.
  - reflexivity.
  - cbn. lia.
  - cbn. lia.
  - unfold U32.in_range, U32.modulus. cbn. lia.
  - vm_compute. discriminate.
Defined.

(** ** Restoring is idempotent, and a snapshot round trip *)

Lemma startFromTimestamp_counters ts now u v :
  _totalAllowanceSeconds u = _totalAllowanceSeconds v ->
  _consumedTodaySeconds u = _consumedTodaySeconds v ->
  startFromTimestamp ts now u = startFromTimestamp ts now v.
Proof. intros Ha Hc. unfold startFromTimestamp. now rewrite Ha, Hc. Qed.

Lemma startFromTimestamp_allowance ts now u :
  _totalAllowanceSeconds (snd (startFromTimestamp ts now u))
  = _totalAllowanceSeconds u.
Proof. unfold startFromTimestamp. now destruct (_ <=? _). Qed.

Lemma setConsumed_twice c u :
  setConsumedTodaySeconds c (setConsumedTodaySeconds c u)
  = setConsumedTodaySeconds c u.
Proof.
  unfold setConsumedTodaySeconds.
  destruct (_totalAllowanceSeconds u <=? c) eqn:E; fields.
  - now rewrite E.
  - destruct (TimerState_eqb (_state u) EXPIRED) eqn:He; fields;
      rewrite E; cbn [TimerState_eqb]; [reflexivity|].
    now rewrite He.
Qed.

(** X7.  Restoring the same snapshot a second time, at the same clock
    reading and weekday, returns the same result and leaves the timer as the
    first restoration left it, whatever the snapshot and the timer are. *)
Theorem restore_twice_is_restore_once
    (s : SessionSnapshot) (currentWeekday : Z) (now : time_t)
    (t : ScreenTimer) :
  restoreFromSnapshot s currentWeekday now
    (snd (restoreFromSnapshot s currentWeekday now t))
  = restoreFromSnapshot s currentWeekday now t.
Proof.
  unfold restoreFromSnapshot.
  destruct (isValid s); cbn [negb]; [|reflexivity].
  destruct (negb (weekday s =? 255) && negb (weekday s =? currentWeekday));
    [reflexivity|].
  destruct (TimerState_eqb (timerState s) RUNNING && (0 <? sessionStartTime s)).
  - set (t1 := setConsumedTodaySeconds (consumedTodaySeconds s) t).
    assert (E : forall u,
               _totalAllowanceSeconds u = _totalAllowanceSeconds t1 ->
               startFromTimestamp (sessionStartTime s) now
                 (setConsumedTodaySeconds (consumedTodaySeconds s) u)
               = startFromTimestamp (sessionStartTime s) now t1).
    { intros u Hu. apply startFromTimestamp_counters.
      - now rewrite setConsumed_allowance.
      - unfold t1. now rewrite !setConsumed_consumed. }
    pose proof (startFromTimestamp_allowance (sessionStartTime s) now t1) as Ha.
    destruct (startFromTimestamp (sessionStartTime s) now t1)
      as [started t2] eqn:E2.
    cbn [snd] in Ha.
    destruct started; cbn [snd]; rewrite (E t2 Ha); try rewrite E2;
      reflexivity.
  - cbn [snd]. now rewrite setConsumed_twice.
Qed.




(** * Properties of the persistence of consumed time *)

Lemma openNamespace_opens io p :
  begin_opens io = true ->
  openNamespace io p
  = (true, mkPersistenceManager (_initialized p) true (_prefs p)).
Proof.
  intros H. unfold openNamespace. rewrite H.
  destruct p as [i [|] s]; reflexivity.
Qed.

Lemma saveConsumedToday_ok io c wd p :
  _initialized p = true ->
  begin_opens io = true ->
  0 < putULong_written io -> 0 < putUChar_written io ->
  0 <= wd <= 6 ->
  saveConsumedToday io c wd p
  = (true, mkPersistenceManager true false (mkPreferences (Some c) (Some wd))).
Proof.
  intros Hi Ho H1 H2 Hwd. unfold saveConsumedToday.
  rewrite Hi. cbn [negb].
  destruct (Z.ltb_spec 6 wd); [lia|].
  rewrite (openNamespace_opens io p Ho). cbn [negb].
  unfold putULong_consumedToday, putUChar_consumedDay.
  apply Z.ltb_lt in H1. apply Z.ltb_lt in H2. rewrite H1, H2.
  cbn [andb _initialized _namespaceOpen _prefs KEY_CONSUMED_TODAY
       KEY_CONSUMED_WEEKDAY closeNamespace].
  now rewrite Hi.
Qed.

Lemma loadConsumedToday_ok io wd p :
  _initialized p = true ->
  begin_opens io = true ->
  loadConsumedToday io wd p
  = (if negb (match KEY_CONSUMED_WEEKDAY (_prefs p) with
              | Some d => d
              | None => 255
              end =? wd)
     then 0
     else match KEY_CONSUMED_TODAY (_prefs p) with
          | Some v => v
          | None => 0
          end,
     mkPersistenceManager true false (_prefs p)).
Proof.
  intros Hi Ho. unfold loadConsumedToday.
  rewrite Hi. cbn [negb].
  rewrite (openNamespace_opens io p Ho).
  cbn [negb _initialized _namespaceOpen _prefs closeNamespace]. rewrite Hi.
  now destruct (negb _).
Qed.

(** X9.  Round trip of the consumed-time record.  On an initialised
    persistence manager whose namespace opens and whose two writes are
    reported written, [saveConsumedToday(c, wd)] with [wd] in 0..6 returns
    true; a later [loadConsumedToday(wd)] returns [c], a load for any other
    weekday returns 0, and loading changes nothing. *)
Theorem consumed_record_round_trip
    (io io' : PrefsOutcome) (c wd : Z) (p : PersistenceManager) :
  _initialized p = true ->
  begin_opens io = true ->
  0 < putULong_written io ->
  0 < putUChar_written io ->
  0 <= wd <= 6 ->
  begin_opens io' = true ->
  let p' := snd (saveConsumedToday io c wd p) in
  fst (saveConsumedToday io c wd p) = true /\
  loadConsumedToday io' wd p' = (c, p') /\
  (forall wd', wd' <> wd -> loadConsumedToday io' wd' p' = (0, p')).
Proof.
  intros Hi Ho H1 H2 Hwd Ho' p'.
  unfold p'. rewrite (saveConsumedToday_ok io c wd p Hi Ho H1 H2 Hwd).
  cbn [fst snd]. split; [reflexivity|]. split.
  - rewrite loadConsumedToday_ok by auto.
    cbn [_prefs KEY_CONSUMED_TODAY KEY_CONSUMED_WEEKDAY].
    now rewrite Z.eqb_refl.
  - intros wd' Hne. rewrite loadConsumedToday_ok by auto.
    cbn [_prefs KEY_CONSUMED_TODAY KEY_CONSUMED_WEEKDAY].
    destruct (Z.eqb_spec wd wd'); [congruence|reflexivity].
Qed.

Lemma consumed_record_round_trip_witness :
  fst (loadConsumedToday (mkPrefsOutcome true 4 1) 2
         (snd (saveConsumedToday (mkPrefsOutcome true 4 1) 900 2
                 (mkPersistenceManager true false (mkPreferences None None)))))
  = 900.
Proof.
  destruct (consumed_record_round_trip (mkPrefsOutcome true 4 1)
              (mkPrefsOutcome true 4 1) 900 2
              (mkPersistenceManager true false (mkPreferences None None)))
    as (_ & H & _).
  - reflexivity.
  - reflexivity.
  - cbn. lia.
  - cbn. lia.
  - lia.
  - reflexivity.
  - rewrite H. reflexivity.
Defined.

(** X10.  A refused save keeps the earlier record.  After a successful
    [saveConsumedToday(c, wd)], a later [saveConsumedToday] that is given a
    weekday above 6, or whose namespace does not open, returns false and
    changes nothing: [loadConsumedToday(wd)] still returns [c]. *)
Theorem refused_save_keeps_the_record
    (io0 io io' : PrefsOutcome) (c wd c2 wd2 : Z) (p : PersistenceManager) :
  _initialized p = true ->
  begin_opens io0 = true ->
  0 < putULong_written io0 ->
  0 < putUChar_written io0 ->
  0 <= wd <= 6 ->
  begin_opens io' = true ->
  6 < wd2 \/ begin_opens io = false ->
  let p1 := snd (saveConsumedToday io0 c wd p) in
  saveConsumedToday io c2 wd2 p1 = (false, p1) /\
  fst (loadConsumedToday io' wd (snd (saveConsumedToday io c2 wd2 p1))) = c.
Proof.
  intros Hi Ho H1 H2 Hwd Ho' Hrefused p1.
  unfold p1. rewrite (saveConsumedToday_ok io0 c wd p Hi Ho H1 H2 Hwd).
  cbn [snd].
  assert (E : saveConsumedToday io c2 wd2
                (mkPersistenceManager true false
                   (mkPreferences (Some c) (Some wd)))
              = (false,
                 mkPersistenceManager true false
                   (mkPreferences (Some c) (Some wd)))).
  { unfold saveConsumedToday. cbn [_initialized negb].
    destruct (Z.ltb_spec 6 wd2) as [Hw|Hw]; [reflexivity|].
    destruct Hrefused as [H|H]; [lia|].
    unfold openNamespace. cbn [_namespaceOpen]. now rewrite H. }
  rewrite E. split; [reflexivity|]. cbn [snd].
  rewrite loadConsumedToday_ok by auto.
  cbn [_prefs KEY_CONSUMED_TODAY KEY_CONSUMED_WEEKDAY fst].
  now rewrite Z.eqb_refl.
Qed.

Lemma refused_save_keeps_the_record_witness :
  fst (loadConsumedToday (mkPrefsOutcome true 4 1) 2
         (snd (saveConsumedToday (mkPrefsOutcome true 4 1) 900 7
                 (snd (saveConsumedToday (mkPrefsOutcome true 4 1) 300 2
                         (mkPersistenceManager true false
                            (mkPreferences None None)))))))
  = 300.
Proof.
  destruct (refused_save_keeps_the_record (mkPrefsOutcome true 4 1)
              (mkPrefsOutcome true 4 1) (mkPrefsOutcome true 4 1)
              300 2 900 7
              (mkPersistenceManager true false (mkPreferences None None)))
    as [_ H].
  - reflexivity.
  - reflexivity.
  - cbn. lia.
  - cbn. lia.
  - lia.
  - reflexivity.
  - left. lia.
  - exact H.
Defined.

(** X11.  After a [clearConsumedToday()] that opens the namespace, and
    likewise on a store in which the record was never written,
    [loadConsumedToday] returns 0 for every weekday, the unset value 0xFF
    included. *)
Theorem cleared_record_loads_zero
    (io io' : PrefsOutcome) (wd : Z) (p : PersistenceManager) :
  _initialized p = true ->
  begin_opens io = true ->
  begin_opens io' = true ->
  fst (clearConsumedToday io p) = true /\
  fst (loadConsumedToday io' wd (snd (clearConsumedToday io p))) = 0 /\
  (_prefs p = mkPreferences None None ->
   fst (loadConsumedToday io' wd p) = 0).
Proof.
  intros Hi Ho Ho'.
  assert (Ec : clearConsumedToday io p
               = (true, mkPersistenceManager true false
                          (mkPreferences None None))).
  { unfold clearConsumedToday. rewrite Hi. cbn [negb].
    rewrite (openNamespace_opens io p Ho).
    cbn [negb _initialized _namespaceOpen closeNamespace]. now rewrite Hi. }
  rewrite Ec. cbn [fst snd]. split; [reflexivity|]. split.
  - rewrite loadConsumedToday_ok by auto.
    cbn [_prefs KEY_CONSUMED_TODAY KEY_CONSUMED_WEEKDAY fst].
    now destruct (negb _).
  - intros Hs. rewrite loadConsumedToday_ok by auto. rewrite Hs.
    cbn [KEY_CONSUMED_TODAY KEY_CONSUMED_WEEKDAY fst].
    now destruct (negb _).
Qed.

Lemma cleared_record_loads_zero_witness :
  fst (loadConsumedToday (mkPrefsOutcome true 4 1) 255
         (snd (clearConsumedToday (mkPrefsOutcome true 4 1)
                 (mkPersistenceManager true false
                    (mkPreferences (Some 300) (Some 2)))))) = 0.
Proof.
  destruct (cleared_record_loads_zero (mkPrefsOutcome true 4 1)
              (mkPrefsOutcome true 4 1) 255
              (mkPersistenceManager true false
                 (mkPreferences (Some 300) (Some 2)))) as (_ & H & _).
  - reflexivity.
  - reflexivity.
  - reflexivity.
  - exact H.
Defined.

(** * Properties of the session manager *)

Lemma pushSessionToApi_pushes dur st d :
  _apiClient d = true ->
  childId_empty (selectedChildId d) = false ->
  st <> 0 ->
  pushSessionToApi dur st d
  = mkDevice (_timer d) (persistenceManager d) (hasUnlimitedAllowance d)
      (selectedChildId d) (_apiClient d)
      (mkPushRequest (selectedChildId d) (U32.add dur 59 / 60) st
         :: pushConsumedTime_calls d).
Proof.
  intros Ha Hc Hs. unfold pushSessionToApi. rewrite Ha, Hc.
  apply Z.eqb_neq in Hs. now rewrite Hs.
Qed.

Lemma persistToNvs_ok io wd d :
  _initialized (persistenceManager d) = true ->
  begin_opens io = true ->
  0 < putULong_written io -> 0 < putUChar_written io ->
  0 <= wd <= 6 ->
  persistToNvs io wd d
  = with_persistence
      (mkPersistenceManager true false
         (mkPreferences (Some (_consumedTodaySeconds (_timer d))) (Some wd)))
      d.
Proof.
  intros Hi Ho H1 H2 Hwd. unfold persistToNvs, getCompletedSessionsSeconds.
  now rewrite saveConsumedToday_ok.
Qed.

(** X12.  The session pushed to the API.  With an API client set, a child
    selected and a start timestamp other than 0, [pushSessionToApi] makes
    exactly one request, for the selected child and the given start
    timestamp, whose duration is the seconds rounded up to whole minutes
    (for durations up to 2^32 - 60 seconds, beyond which the rounding
    addition wraps).  Without an API client, without a selected child or with
    start timestamp 0 it makes no request and changes nothing. *)
Theorem pushed_minutes_are_rounded_up
    (durationSeconds : Z) (startTime : time_t) (d : Device) :
  (_apiClient d = true ->
   childId_empty (selectedChildId d) = false ->
   startTime <> 0 ->
   0 <= durationSeconds <= U32.modulus - 60 ->
   exists minutes,
     pushConsumedTime_calls (pushSessionToApi durationSeconds startTime d)
     = mkPushRequest (selectedChildId d) minutes startTime
         :: pushConsumedTime_calls d /\
     60 * (minutes - 1) < durationSeconds <= 60 * minutes /\
     _timer (pushSessionToApi durationSeconds startTime d) = _timer d /\
     persistenceManager (pushSessionToApi durationSeconds startTime d)
     = persistenceManager d) /\
  (_apiClient d = false \/ childId_empty (selectedChildId d) = true \/
   startTime = 0 ->
   pushSessionToApi durationSeconds startTime d = d).
Proof.
  split.
  - intros Ha Hc Hs Hd.
    rewrite (pushSessionToApi_pushes durationSeconds startTime d Ha Hc Hs).
    exists (U32.add durationSeconds 59 / 60).
    cbn [pushConsumedTime_calls _timer persistenceManager].
    split; [reflexivity|]. split; [|split; reflexivity].
    rewrite U32Facts.add_small by u32_range.
    pose proof (Z.div_mod (durationSeconds + 59) 60 ltac:(lia)) as Hdm.
    pose proof (Z.mod_pos_bound (durationSeconds + 59) 60 ltac:(lia)) as Hb.
    lia.
  - intros [Ha|[Hc|Hs]]; unfold pushSessionToApi.
    + now rewrite Ha.
    + destruct (_apiClient d); cbn [negb]; [|reflexivity]. now rewrite Hc.
    + destruct (_apiClient d); cbn [negb]; [|reflexivity].
      destruct (childId_empty _); [reflexivity|].
      subst startTime. reflexivity.
Qed.

Lemma pushed_minutes_are_rounded_up_witness :
  pushConsumedTime_calls
    (pushSessionToApi 61 1700000000
       (mkDevice ScreenTimer_new PersistenceManager_new false
          "child-1"%string true []))
  = [mkPushRequest "child-1"%string 2 1700000000].
Proof.
  destruct (pushed_minutes_are_rounded_up 61 1700000000
              (mkDevice ScreenTimer_new PersistenceManager_new false
                 "child-1"%string true [])) as [H _].
  destruct H as (m & Hcalls & Hm & _).
  - reflexivity.
  - reflexivity.
  - lia.
  - unfold U32.modulus. lia.
  - rewrite Hcalls. cbn [selectedChildId pushConsumedTime_calls].
    replace m with 2 by lia. reflexivity.
Defined.

(** X13.  Stopping a session through the manager.  On a running session,
    with the persistence manager initialised, the store accepting the
    writes, a weekday in 0..6, an API client and a selected child,
    [stopSession(M)] returns the actual elapsed seconds, stops the timer as
    [ScreenTimer::stop(M)] does, stores the timer's new completed total
    under the weekday (so that [loadFromNvs] on that weekday returns it), and
    pushes one request carrying the start timestamp the session had before
    the stop and the effective duration, the larger of actual and [M] when
    [M > 0], in minutes.  On a timer that is not running it returns 0 and
    changes nothing. *)
Theorem stopSession_persists_then_pushes
    (M : Z) (io io' : PrefsOutcome) (wd : Z) (now : time_t) (d : Device) :
  (isRunning (_timer d) = true ->
   0 <= M ->
   _sessionStartTime (_timer d) <> 0 ->
   _initialized (persistenceManager d) = true ->
   begin_opens io = true ->
   0 < putULong_written io ->
   0 < putUChar_written io ->
   0 <= wd <= 6 ->
   begin_opens io' = true ->
   _apiClient d = true ->
   childId_empty (selectedChildId d) = false ->
   let actual := calculateCurrentSessionSeconds now (_timer d) in
   let d' := snd (stopSession M io wd now d) in
   fst (stopSession M io wd now d) = actual /\
   _timer d' = snd (stop M now (_timer d)) /\
   _consumedTodaySeconds (_timer d')
   = U32.add (_consumedTodaySeconds (_timer d)) (Z.max actual M) /\
   fst (loadFromNvs io' wd d') = _consumedTodaySeconds (_timer d') /\
   pushConsumedTime_calls d'
   = mkPushRequest (selectedChildId d)
       (U32.add (Z.max actual M) 59 / 60) (_sessionStartTime (_timer d))
       :: pushConsumedTime_calls d) /\
  (isRunning (_timer d) = false -> stopSession M io wd now d = (0, d)).
Proof.
  split.
  - intros Hrun HM Hst Hi Ho H1 H2 Hwd Ho' Ha Hc actual d'.
    assert (Hr : _state (_timer d) = RUNNING)
      by now apply TimerState_eqb_eq.
    pose proof (current_session_in_range now (_timer d)) as Hact.
    fold actual in Hact.
    assert (Heff : (if (0 <? M) && (actual <? M) then M else actual)
                   = Z.max actual M).
    { destruct (Z.ltb_spec 0 M); destruct (Z.ltb_spec actual M);
        cbn [andb]; unfold U32.in_range in Hact; lia. }
    assert (Es : stopSession M io wd now d
                 = (actual,
                    pushSessionToApi (Z.max actual M)
                      (_sessionStartTime (_timer d))
                      (persistToNvs io wd
                         (with_timer
                            (mkScreenTimer STOPPED
                               (_totalAllowanceSeconds (_timer d))
                               (U32.add (_consumedTodaySeconds (_timer d))
                                  (Z.max actual M)) 0) d)))).
    { unfold stopSession. rewrite Hrun. cbn [negb].
      rewrite (stop_running M now (_timer d) Hr). fold actual.
      rewrite Heff. reflexivity. }
    unfold d'. rewrite Es. cbn [fst snd].
    rewrite persistToNvs_ok by (cbn [with_timer persistenceManager]; auto).
    rewrite pushSessionToApi_pushes by (cbn; auto).
    cbn [with_timer with_persistence _timer persistenceManager
         pushConsumedTime_calls selectedChildId _consumedTodaySeconds].
    split; [reflexivity|].
    split; [rewrite (stop_running M now (_timer d) Hr); fold actual;
            now rewrite Heff|].
    split; [reflexivity|]. split; [|reflexivity].
    unfold loadFromNvs. cbn [persistenceManager].
    rewrite loadConsumedToday_ok by auto.
    cbn [_prefs KEY_CONSUMED_TODAY KEY_CONSUMED_WEEKDAY fst].
    now rewrite Z.eqb_refl.
  - intros Hnot. unfold stopSession. now rewrite Hnot.
Qed.

Lemma stopSession_persists_then_pushes_witness :
  let d := mkDevice (mkScreenTimer RUNNING 3600 600 1700000000)
             (mkPersistenceManager true false (mkPreferences None None))
             false "child-1"%string true [] in
  fst (stopSession 300 (mkPrefsOutcome true 4 1) 2 1700000100 d) = 100 /\
  pushConsumedTime_calls
    (snd (stopSession 300 (mkPrefsOutcome true 4 1) 2 1700000100 d))
  = [mkPushRequest "child-1"%string 5 1700000000].
Proof.
  intros d.
  destruct (stopSession_persists_then_pushes 300 (mkPrefsOutcome true 4 1)
              (mkPrefsOutcome true 4 1) 2 1700000100 d) as [H _].
  destruct H as (Hret & _ & _ & _ & Hpush); try reflexivity;
    try (cbn; lia); try discriminate.
  split.
  - rewrite Hret. vm_compute. reflexivity.
  - rewrite Hpush. vm_compute. reflexivity.
Defined.

(** X14.  Reset for a new day.  [resetForNewDay(a)] leaves the timer
    stopped with nothing consumed and no start timestamp, whatever it was
    doing before; the allowance becomes [a] when [a > 0] and is kept when
    [a] is 0.  With the persistence manager initialised and the namespace
    opening, the stored consumed-time record is gone: [loadFromNvs] returns 0
    for every weekday. *)
Theorem new_day_clears_timer_and_record
    (a : Z) (io io' : PrefsOutcome) (wd : Z) (d : Device) :
  _timer (resetForNewDay a io d)
  = mkScreenTimer STOPPED
      (if 0 <? a then a else _totalAllowanceSeconds (_timer d)) 0 0 /\
  (forall n, U32.in_range (_totalAllowanceSeconds (_timer (resetForNewDay a io d))) ->
             calculateRemainingSeconds n (_timer (resetForNewDay a io d))
             = _totalAllowanceSeconds (_timer (resetForNewDay a io d))) /\
  (_initialized (persistenceManager d) = true ->
   begin_opens io = true ->
   begin_opens io' = true ->
   fst (loadFromNvs io' wd (resetForNewDay a io d)) = 0).
Proof.
  split; [reflexivity|]. split.
  - intros n Hr. rewrite remaining_not_running.
    + cbn [resetForNewDay with_timer _timer reset _consumedTodaySeconds
           _totalAllowanceSeconds] in *.
      unfold U32.in_range in Hr. lia.
    + split; [exact Hr|]. cbn. unfold U32.in_range, U32.modulus. lia.
    + cbn. discriminate.
  - intros Hi Ho Ho'.
    unfold loadFromNvs, resetForNewDay, clearNvsConsumedTime.
    cbn [with_timer with_persistence persistenceManager].
    unfold clearConsumedToday. rewrite Hi. cbn [negb].
    rewrite (openNamespace_opens io _ Ho).
    cbn [negb snd _initialized _namespaceOpen closeNamespace].
    rewrite loadConsumedToday_ok by (cbn; auto).
    cbn [_prefs KEY_CONSUMED_TODAY KEY_CONSUMED_WEEKDAY fst].
    now destruct (negb _).
Qed.

Lemma new_day_clears_timer_and_record_witness :
  fst (loadFromNvs (mkPrefsOutcome true 4 1) 2
         (resetForNewDay 7200 (mkPrefsOutcome true 4 1)
            (mkDevice (mkScreenTimer RUNNING 3600 600 1700000000)
               (mkPersistenceManager true false
                  (mkPreferences (Some 600) (Some 2)))
               false "child-1"%string true []))) = 0.
Proof.
  destruct (new_day_clears_timer_and_record 7200 (mkPrefsOutcome true 4 1)
              (mkPrefsOutcome true 4 1) 2
              (mkDevice (mkScreenTimer RUNNING 3600 600 1700000000)
                 (mkPersistenceManager true false
                    (mkPreferences (Some 600) (Some 2)))
                 false "child-1"%string true [])) as (_ & _ & H).
  apply H; reflexivity.
Defined.

(** * Properties of the main screen *)

Lemma with_timer_same d : with_timer (_timer d) d = d.
Proof. now destruct d. Qed.

(** X15.  The three tiers of the toggle.  When the button toggles a running
    session that has lasted [e] seconds by the reading [now]: below 5
    seconds the session is aborted, leaving the timer stopped with the
    consumed total unchanged and nothing persisted or pushed; from 5 to
    below 300 seconds only the minimum-session warning is shown and nothing
    at all changes; from 300 seconds on the session is stopped with no
    minimum, so the seconds committed are the actual ones measured at the
    stop. *)
Theorem toggle_has_three_tiers
    (io : PrefsOutcome) (wd : Z) (now nowStop : time_t) (d : Device) :
  isRunning (_timer d) = true ->
  let e := getCurrentSessionSeconds now (_timer d) in
  (e < MISTAKEN_SESSION_DURATION_SECS ->
   toggleTimer io wd now nowStop d
   = (MistakenSessionAborted,
      with_timer
        (mkScreenTimer STOPPED (_totalAllowanceSeconds (_timer d))
           (_consumedTodaySeconds (_timer d)) 0) d)) /\
  (MISTAKEN_SESSION_DURATION_SECS <= e < MINIMUM_SESSION_DURATION_SECONDS ->
   toggleTimer io wd now nowStop d = (MinimumSessionWarningShown, d)) /\
  (MINIMUM_SESSION_DURATION_SECONDS <= e ->
   toggleTimer io wd now nowStop d
   = (SessionStopped, snd (stopSession 0 io wd nowStop d)) /\
   _timer (snd (toggleTimer io wd now nowStop d))
   = mkScreenTimer STOPPED (_totalAllowanceSeconds (_timer d))
       (U32.add (_consumedTodaySeconds (_timer d))
          (calculateCurrentSessionSeconds nowStop (_timer d))) 0).
Proof.
  intros Hrun e.
  assert (Hr : _state (_timer d) = RUNNING) by now apply TimerState_eqb_eq.
  unfold toggleTimer. rewrite Hrun. fold e.
  unfold MISTAKEN_SESSION_DURATION_SECS, MINIMUM_SESSION_DURATION_SECONDS,
    MINIMUM_SESSION_ENABLED.
  change (5 * 60) with 300. cbn [andb].
  split; [|split].
  - intros He. destruct (Z.ltb_spec e 5); [|lia].
    unfold abortSession_manager. rewrite Hrun. cbn [negb].
    unfold abortSession. now rewrite Hr.
  - intros He. destruct (Z.ltb_spec e 5); [lia|].
    destruct (Z.ltb_spec e 300); [reflexivity|lia].
  - intros He. destruct (Z.ltb_spec e 5); [lia|].
    destruct (Z.ltb_spec e 300); [lia|].
    split; [reflexivity|]. cbn [snd].
    unfold stopTimer, stopSession. rewrite Hrun. cbn [negb].
    rewrite (stop_running 0 nowStop (_timer d) Hr).
    change (0 <? 0) with false. cbn [andb snd].
    unfold pushSessionToApi, persistToNvs.
    repeat match goal with
           | |- context [if ?b then _ else _] => destruct b
           end; reflexivity.
Qed.

Lemma toggle_has_three_tiers_witness :
  let d := mkDevice (mkScreenTimer RUNNING 3600 0 1700000000)
             (mkPersistenceManager true false (mkPreferences None None))
             false "child-1"%string true [] in
  toggleTimer (mkPrefsOutcome true 4 1) 2 1700000004 1700000004 d
  = (MistakenSessionAborted,
     with_timer (mkScreenTimer STOPPED 3600 0 0) d).
Proof.
  intros d.
  destruct (toggle_has_three_tiers (mkPrefsOutcome true 4 1) 2 1700000004
              1700000004 d) as (H & _ & _).
  - reflexivity.
  - apply H. vm_compute. reflexivity.
Defined.

(** X16.  The answer to the minimum-session warning.  On a running
    session, the second button stops it with the five-minute minimum: the
    seconds committed are 300, or the actual elapsed seconds at that moment
    if they have reached 300 by then; [stopSession]'s persistence and push
    follow.  Every other answer leaves the device as it is, session
    running. *)
Theorem warning_answer_charges_the_minimum
    (result : DialogResult) (io : PrefsOutcome) (wd : Z) (now : time_t)
    (d : Device) :
  isRunning (_timer d) = true ->
  (result = BUTTON_2 ->
   onMinimumSessionDialogResult result io wd now d
   = snd (stopSession MINIMUM_SESSION_DURATION_SECONDS io wd now d) /\
   _timer (onMinimumSessionDialogResult result io wd now d)
   = mkScreenTimer STOPPED (_totalAllowanceSeconds (_timer d))
       (U32.add (_consumedTodaySeconds (_timer d))
          (Z.max 300 (calculateCurrentSessionSeconds now (_timer d)))) 0) /\
  (result <> BUTTON_2 ->
   onMinimumSessionDialogResult result io wd now d = d).
Proof.
  intros Hrun.
  assert (Hr : _state (_timer d) = RUNNING) by now apply TimerState_eqb_eq.
  split.
  - intros ->. cbn [onMinimumSessionDialogResult]. unfold stopTimer.
    split; [reflexivity|].
    unfold stopSession. rewrite Hrun. cbn [negb].
    rewrite (stop_running _ now (_timer d) Hr). cbn [snd].
    unfold MINIMUM_SESSION_DURATION_SECONDS. change (5 * 60) with 300.
    change (0 <? 300) with true. cbn [andb].
    assert (E : (if calculateCurrentSessionSeconds now (_timer d) <? 300
                 then 300
                 else calculateCurrentSessionSeconds now (_timer d))
                = Z.max 300 (calculateCurrentSessionSeconds now (_timer d))).
    { destruct (Z.ltb_spec (calculateCurrentSessionSeconds now (_timer d)) 300);
        lia. }
    rewrite E.
    unfold pushSessionToApi, persistToNvs.
    repeat match goal with
           | |- context [if ?b then _ else _] => destruct b
           end; reflexivity.
  - intros Hne. destruct result; try reflexivity. congruence.
Qed.

Lemma warning_answer_charges_the_minimum_witness :
  _consumedTodaySeconds
    (_timer
       (onMinimumSessionDialogResult BUTTON_2 (mkPrefsOutcome true 4 1) 2
          1700000100
          (mkDevice (mkScreenTimer RUNNING 3600 600 1700000000)
             (mkPersistenceManager true false (mkPreferences None None))
             false "child-1"%string true [])))
  = 900.
Proof.
  destruct (warning_answer_charges_the_minimum BUTTON_2
              (mkPrefsOutcome true 4 1) 2 1700000100
              (mkDevice (mkScreenTimer RUNNING 3600 600 1700000000)
                 (mkPersistenceManager true false (mkPreferences None None))
                 false "child-1"%string true [])) as [H _].
  - reflexivity.
  - destruct (H eq_refl) as [_ Ht]. rewrite Ht. vm_compute. reflexivity.
Defined.

(** X17.  Expiry on the screen's tick.  When the tick finds nothing
    remaining on a running session (persistence initialised and accepting
    the writes, weekday in 0..6, API client and child set, start timestamp
    not 0), [MainScreen::update] leaves the timer expired with consumed =
    allowance, stores the allowance as the consumed total of the weekday, and
    pushes one request with the session's start timestamp and the duration
    measured just before the tick, in minutes.  A tick that finds time
    remaining, or no session running, changes nothing. *)
Theorem tick_expiry_is_persisted_and_pushed
    (io io' : PrefsOutcome) (wd : Z) (nowBefore nowTick : time_t)
    (d : Device) :
  (isRunning (_timer d) = true ->
   calculateRemainingSeconds nowTick (_timer d) = 0 ->
   _sessionStartTime (_timer d) <> 0 ->
   _initialized (persistenceManager d) = true ->
   begin_opens io = true ->
   0 < putULong_written io ->
   0 < putUChar_written io ->
   0 <= wd <= 6 ->
   begin_opens io' = true ->
   _apiClient d = true ->
   childId_empty (selectedChildId d) = false ->
   let d' := MainScreen_update io wd nowBefore nowTick d in
   _timer d'
   = mkScreenTimer EXPIRED (_totalAllowanceSeconds (_timer d))
       (_totalAllowanceSeconds (_timer d)) 0 /\
   fst (loadFromNvs io' wd d') = _totalAllowanceSeconds (_timer d) /\
   pushConsumedTime_calls d'
   = mkPushRequest (selectedChildId d)
       (U32.add (getCurrentSessionSeconds nowBefore (_timer d)) 59 / 60)
       (_sessionStartTime (_timer d))
       :: pushConsumedTime_calls d) /\
  (isRunning (_timer d) = false \/
   calculateRemainingSeconds nowTick (_timer d) <> 0 ->
   MainScreen_update io wd nowBefore nowTick d = d).
Proof.
  split.
  - intros Hrun Hrem Hst Hi Ho H1 H2 Hwd Ho' Ha Hc d'.
    assert (Hr : _state (_timer d) = RUNNING) by now apply TimerState_eqb_eq.
    unfold d', MainScreen_update. rewrite Hrun.
    rewrite (update_running nowTick (_timer d) Hr), Hrem.
    change (0 =? 0) with true. cbv iota.
    cbn [with_timer _timer isExpired _state TimerState_eqb].
    unfold onTimerExpired, onSessionExpired, getSessionStartTime.
    rewrite persistToNvs_ok by (cbn; auto).
    rewrite pushSessionToApi_pushes by (cbn; auto).
    cbn [with_timer with_persistence _timer persistenceManager
         pushConsumedTime_calls selectedChildId _consumedTodaySeconds].
    split; [reflexivity|]. split; [|reflexivity].
    unfold loadFromNvs. cbn [persistenceManager].
    rewrite loadConsumedToday_ok by auto.
    cbn [_prefs KEY_CONSUMED_TODAY KEY_CONSUMED_WEEKDAY fst].
    now rewrite Z.eqb_refl.
  - intros H. unfold MainScreen_update.
    destruct (isRunning (_timer d)) eqn:Hrun; [|reflexivity].
    destruct H as [H|H]; [discriminate|].
    assert (Hr : _state (_timer d) = RUNNING) by now apply TimerState_eqb_eq.
    rewrite (update_running nowTick (_timer d) Hr).
    apply Z.eqb_neq in H. rewrite H.
    rewrite with_timer_same. unfold isExpired. rewrite Hr. reflexivity.
Qed.

Lemma tick_expiry_is_persisted_and_pushed_witness :
  let d := mkDevice (mkScreenTimer RUNNING 3600 0 1700000000)
             (mkPersistenceManager true false (mkPreferences None None))
             false "child-1"%string true [] in
  pushConsumedTime_calls
    (MainScreen_update (mkPrefsOutcome true 4 1) 2 1700003600 1700003600 d)
  = [mkPushRequest "child-1"%string 60 1700000000].
Proof.
  intros d.
  destruct (tick_expiry_is_persisted_and_pushed (mkPrefsOutcome true 4 1)
              (mkPrefsOutcome true 4 1) 2 1700003600 1700003600 d) as [H _].
  destruct H as (_ & _ & Hpush);
    [ reflexivity | vm_compute; reflexivity | discriminate | reflexivity
    | reflexivity | cbn; lia | cbn; lia | lia | reflexivity | reflexivity
    | reflexivity | ].
  rewrite Hpush. vm_compute. reflexivity.
Defined.

(** * Properties of deep sleep *)





(** The wake-up on the same day, for every content of the RTC variables:
    the stored session is replayed when the stored state is [RUNNING] and the
    running flag is set, whatever the stored timestamp is. *)
Lemma wake_on_same_day_exact
    (loggedIn : bool) (wd : Z) (now : time_t) (g : Globals) :
  rtcHasValidState (rtc g) = true ->
  (rtcWasLoggedIn (rtc g) = true -> loggedIn = true) ->
  rtcWeekday (rtc g) = wd \/ rtcWeekday (rtc g) = 255 ->
  let t1 := setConsumedTodaySeconds (rtcConsumedTodaySeconds (rtc g))
              (screenTimer g) in
  let replay := TimerState_eqb (rtcTimerState (rtc g)) RUNNING
                && rtcWasTimerRunning (rtc g) in
  checkAndRestoreFromSleep true loggedIn wd now g
  = (true,
     mkGlobals
       (mkRtcMemory (rtcWasTimerRunning (rtc g)) (rtcSessionStartTime (rtc g))
          (rtcConsumedTodaySeconds (rtc g)) false (rtcTimerState (rtc g))
          (rtcWeekday (rtc g)) (rtcWasLoggedIn (rtc g)))
       (if replay
        then snd (startFromTimestamp (rtcSessionStartTime (rtc g)) now t1)
        else t1)
       (replay
        && fst (startFromTimestamp (rtcSessionStartTime (rtc g)) now t1))).
Proof.
  intros Hv Hlog Hday t1 replay.
  unfold checkAndRestoreFromSleep. cbn [negb]. rewrite Hv. cbn [negb].
  assert (El : rtcWasLoggedIn (rtc g) && negb loggedIn = false).
  { destruct (rtcWasLoggedIn (rtc g)); [|reflexivity].
    now rewrite Hlog. }
  rewrite El.
  assert (Ed : negb (rtcWeekday (rtc g) =? 255)
               && negb (rtcWeekday (rtc g) =? wd) = false).
  { destruct Hday as [E|E]; rewrite E.
    - rewrite Z.eqb_refl. apply andb_false_r.
    - now rewrite Z.eqb_refl. }
  rewrite Ed. cbn [negb]. rewrite andb_true_r.
  fold t1. fold replay.
  destruct replay; cbn [andb]; [|reflexivity].
  destruct (startFromTimestamp _ _ _) as [[|] t2]; reflexivity.
Qed.

(** The timer that [setConsumedTodaySeconds] leaves when the new total is
    below the allowance and no session was running: stopped. *)
Lemma setConsumed_stopped c t :
  c < _totalAllowanceSeconds t -> _state t <> RUNNING ->
  _state (setConsumedTodaySeconds c t) = STOPPED.
Proof.
  intros Hlt Hs. unfold setConsumedTodaySeconds.
  destruct (Z.leb_spec (_totalAllowanceSeconds t) c); [lia|].
  destruct (_state t); cbn [TimerState_eqb]; fields;
    [reflexivity|contradiction|reflexivity].
Qed.

Lemma startFromTimestamp_not_stopped ts now t :
  _state (snd (startFromTimestamp ts now t)) <> STOPPED.
Proof.
  unfold startFromTimestamp. destruct (_ <=? _); fields; discriminate.
Qed.

(** X19.  Where the two recovery paths agree, and where they do not.  Take a
    wake-up from deep sleep with the RTC variables marked valid, saved on the
    same weekday (or with no weekday), the user still logged in if they
    were.  [checkAndRestoreFromSleep] returns true, sets the consumed total
    from the RTC copy, replays the stored session from its timestamp exactly
    when the stored state is [RUNNING] and the running flag is set, sets
    [restoreTimerRunning] exactly when the replayed session still runs, and
    clears the valid flag, so that a second call restores nothing.
    [SessionManager::restoreFromSnapshot] replays the session of the same
    values exactly when the stored state is [RUNNING] and the timestamp is
    after the epoch.  When the two tests give the same answer (as they do for
    what [tryGoToSleep] stores for a session started after the epoch) the two
    paths leave the same timer.  When they give different answers, a stored
    state [RUNNING] with the flag unset and a timestamp after the epoch, or
    with the flag set and a timestamp not after the epoch, the two paths
    leave different timers, for every timer that is not running and has an
    allowance above the stored consumed total: the path that replays leaves
    it running or expired, the other leaves it stopped. *)
Theorem wake_restore_agrees_with_snapshot_restore
    (loggedIn : bool) (wd : Z) (now : time_t) (g : Globals) :
  rtcHasValidState (rtc g) = true ->
  (rtcWasLoggedIn (rtc g) = true -> loggedIn = true) ->
  rtcWeekday (rtc g) = wd \/ rtcWeekday (rtc g) = 255 ->
  let s := mkSessionSnapshot (rtcConsumedTodaySeconds (rtc g))
             (rtcSessionStartTime (rtc g)) (rtcTimerState (rtc g))
             (rtcWeekday (rtc g)) true in
  let t1 := setConsumedTodaySeconds (rtcConsumedTodaySeconds (rtc g))
              (screenTimer g) in
  let replayed := startFromTimestamp (rtcSessionStartTime (rtc g)) now t1 in
  let replay_wake := TimerState_eqb (rtcTimerState (rtc g)) RUNNING
                     && rtcWasTimerRunning (rtc g) in
  let replay_snapshot := TimerState_eqb (rtcTimerState (rtc g)) RUNNING
                         && (0 <? rtcSessionStartTime (rtc g)) in
  let g' := snd (checkAndRestoreFromSleep true loggedIn wd now g) in
  fst (checkAndRestoreFromSleep true loggedIn wd now g) = true /\
  screenTimer g' = (if replay_wake then snd replayed else t1) /\
  restoreTimerRunning g' = (replay_wake && fst replayed) /\
  rtcHasValidState (rtc g') = false /\
  fst (checkAndRestoreFromSleep true loggedIn wd now g') = false /\
  restoreFromSnapshot s wd now (screenTimer g)
  = (if replay_snapshot then replayed else (true, t1)) /\
  (replay_wake = replay_snapshot ->
   screenTimer g' = snd (restoreFromSnapshot s wd now (screenTimer g)) /\
   restoreTimerRunning g'
   = (replay_snapshot
      && fst (restoreFromSnapshot s wd now (screenTimer g)))) /\
  (replay_wake <> replay_snapshot ->
   _state (screenTimer g) <> RUNNING ->
   rtcConsumedTodaySeconds (rtc g) < _totalAllowanceSeconds (screenTimer g) ->
   screenTimer g' <> snd (restoreFromSnapshot s wd now (screenTimer g)) /\
   (_state (screenTimer g') = STOPPED <->
    _state (snd (restoreFromSnapshot s wd now (screenTimer g))) <> STOPPED)).
Proof.
  intros Hv Hlog Hday s t1 replayed replay_wake replay_snapshot g'.
  assert (Esnap : restoreFromSnapshot s wd now (screenTimer g)
                  = if replay_snapshot then replayed else (true, t1)).
  { unfold restoreFromSnapshot, s.
    cbn [isValid weekday timerState sessionStartTime consumedTodaySeconds negb].
    assert (Ed : negb (rtcWeekday (rtc g) =? 255)
                 && negb (rtcWeekday (rtc g) =? wd) = false).
    { destruct Hday as [E|E]; rewrite E.
      - rewrite Z.eqb_refl. apply andb_false_r.
      - now rewrite Z.eqb_refl. }
    rewrite Ed. fold t1. fold replay_snapshot. fold replayed.
    destruct replay_snapshot; [|reflexivity].
    destruct replayed as [[|] t2]; reflexivity. }
  unfold g'.
  rewrite (wake_on_same_day_exact loggedIn wd now g Hv Hlog Hday).
  fold t1. fold replayed. fold replay_wake.
  cbn [fst snd screenTimer restoreTimerRunning rtc rtcHasValidState].
  rewrite Esnap.
  split; [reflexivity|]. split; [reflexivity|]. split; [reflexivity|].
  split; [reflexivity|]. split; [reflexivity|]. split; [reflexivity|].
  split.
  - intros <-. split; now destruct replay_wake.
  - intros Hne Hnot Hlt.
    pose proof (setConsumed_stopped _ _ Hlt Hnot) as Hst. fold t1 in Hst.
    pose proof (startFromTimestamp_not_stopped
                  (rtcSessionStartTime (rtc g)) now t1) as Hrep.
    fold replayed in Hrep.
    destruct replay_wake, replay_snapshot; try congruence; cbn [snd].
    + split; [intros E; rewrite E in Hrep; contradiction|].
      split; [intros E; rewrite E in Hrep; contradiction|].
      intros E. contradiction.
    + split; [intros E; rewrite <- E in Hrep; contradiction|].
      split; [intros _; exact Hrep|intros _; exact Hst].
Qed.

(** The running flag set and the session started after the epoch: both
    paths resume the session.  The same values with the flag unset: the
    wake-up leaves the timer stopped, the snapshot restore resumes the
    session. *)
Lemma wake_restore_agrees_with_snapshot_restore_witness :
  (screenTimer
     (snd (checkAndRestoreFromSleep true true 2 1700000500
             (mkGlobals
                (mkRtcMemory true 1700000000 600 true RUNNING 2 true)
                (setAllowance 3600 (begin 0 0 ScreenTimer_new)) false)))
   = mkScreenTimer RUNNING 3600 600 1700000000 /\
   snd (restoreFromSnapshot
          (mkSessionSnapshot 600 1700000000 RUNNING 2 true) 2 1700000500
          (setAllowance 3600 (begin 0 0 ScreenTimer_new)))
   = mkScreenTimer RUNNING 3600 600 1700000000) /\
  screenTimer
    (snd (checkAndRestoreFromSleep true true 2 1700000500
            (mkGlobals
               (mkRtcMemory false 1700000000 600 true RUNNING 2 true)
               (setAllowance 3600 (begin 0 0 ScreenTimer_new)) false)))
  <> snd (restoreFromSnapshot
            (mkSessionSnapshot 600 1700000000 RUNNING 2 true) 2 1700000500
            (setAllowance 3600 (begin 0 0 ScreenTimer_new))).
Proof.
  split.
  - destruct (wake_restore_agrees_with_snapshot_restore true 2 1700000500
                (mkGlobals
                   (mkRtcMemory true 1700000000 600 true RUNNING 2 true)
                   (setAllowance 3600 (begin 0 0 ScreenTimer_new)) false))
      as (_ & Hwake & _ & _ & _ & _ & Hagree & _).
    + reflexivity.
    + reflexivity.
    + left. reflexivity.
    + destruct (Hagree eq_refl) as [Hsame _].
      split.
      * rewrite Hwake. vm_compute. reflexivity.
      * cbn [screenTimer rtc rtcConsumedTodaySeconds rtcSessionStartTime
             rtcTimerState rtcWeekday] in Hsame.
        rewrite <- Hsame, Hwake. vm_compute. reflexivity.
  - destruct (wake_restore_agrees_with_snapshot_restore true 2 1700000500
                (mkGlobals
                   (mkRtcMemory false 1700000000 600 true RUNNING 2 true)
                   (setAllowance 3600 (begin 0 0 ScreenTimer_new)) false))
      as (_ & _ & _ & _ & _ & _ & _ & Hdiffer).
    + reflexivity.
    + reflexivity.
    + left. reflexivity.
    + destruct Hdiffer as [Hne _].
      * vm_compute. discriminate.
      * vm_compute. discriminate.
      * vm_compute. reflexivity.
      * exact Hne.
Defined.

(** X20.  Waking up on another day.  When the weekday stored before the
    sleep is set and differs from the current one, [checkAndRestoreFromSleep]
    restores no session, whatever the RTC variables say about a running one:
    the timer's consumed total becomes 0, no start timestamp is replayed,
    [restoreTimerRunning] is false, and the RTC copies of the session are
    cleared.  The allowance is not touched. *)
Theorem wake_on_another_day_restores_nothing
    (loggedIn : bool) (wd : Z) (now : time_t) (g : Globals) :
  rtcHasValidState (rtc g) = true ->
  (rtcWasLoggedIn (rtc g) = true -> loggedIn = true) ->
  rtcWeekday (rtc g) <> 255 ->
  rtcWeekday (rtc g) <> wd ->
  let g' := snd (checkAndRestoreFromSleep true loggedIn wd now g) in
  fst (checkAndRestoreFromSleep true loggedIn wd now g) = true /\
  screenTimer g' = setConsumedTodaySeconds 0 (screenTimer g) /\
  _consumedTodaySeconds (screenTimer g') = 0 /\
  _totalAllowanceSeconds (screenTimer g')
  = _totalAllowanceSeconds (screenTimer g) /\
  (_state (screenTimer g) <> RUNNING -> _state (screenTimer g') <> RUNNING) /\
  restoreTimerRunning g' = false /\
  rtc g' = mkRtcMemory false 0 0 false STOPPED (rtcWeekday (rtc g))
             (rtcWasLoggedIn (rtc g)).
Proof.
  intros Hv Hlog H255 Hwd g'.
  assert (E : checkAndRestoreFromSleep true loggedIn wd now g
              = (true,
                 mkGlobals
                   (mkRtcMemory false 0 0 false STOPPED (rtcWeekday (rtc g))
                      (rtcWasLoggedIn (rtc g)))
                   (setConsumedTodaySeconds 0 (screenTimer g)) false)).
  { unfold checkAndRestoreFromSleep. cbn [negb]. rewrite Hv. cbn [negb].
    assert (El : rtcWasLoggedIn (rtc g) && negb loggedIn = false).
    { destruct (rtcWasLoggedIn (rtc g)); [|reflexivity]. now rewrite Hlog. }
    rewrite El.
    apply Z.eqb_neq in H255. apply Z.eqb_neq in Hwd.
    rewrite H255, Hwd. reflexivity. }
  unfold g'. rewrite E.
  cbn [fst snd screenTimer restoreTimerRunning rtc].
  rewrite setConsumed_consumed, setConsumed_allowance.
  repeat split.
  unfold setConsumedTodaySeconds.
  intros Hs. destruct (_ <=? 0); fields; [discriminate|].
  destruct (TimerState_eqb _ EXPIRED); fields; [discriminate|exact Hs].
Qed.

Lemma wake_on_another_day_restores_nothing_witness :
  screenTimer
    (snd (checkAndRestoreFromSleep true true 3 1700000500
            (mkGlobals
               (mkRtcMemory true 1700000000 600 true RUNNING 2 true)
               (setAllowance 3600 (begin 0 0 ScreenTimer_new)) false)))
  = mkScreenTimer STOPPED 3600 0 0.
Proof.
  destruct (wake_on_another_day_restores_nothing true 3 1700000500
              (mkGlobals
                 (mkRtcMemory true 1700000000 600 true RUNNING 2 true)
                 (setAllowance 3600 (begin 0 0 ScreenTimer_new)) false))
    as (_ & H & _).
  - reflexivity.
  - reflexivity.
  - cbn. lia.
  - cbn. lia.
  - rewrite H. vm_compute. reflexivity.
Defined.



(** X22.  A wake-up that restores nothing.  On a normal boot, or when the
    RTC variables are not marked valid, [checkAndRestoreFromSleep] returns
    false and changes nothing.  When the user was logged in before the sleep
    and no longer is, it returns false, clears the valid flag and leaves the
    timer and [restoreTimerRunning] as they are. *)
Theorem wake_without_valid_state_restores_nothing
    (woke loggedIn : bool) (wd : Z) (now : time_t) (g : Globals) :
  (woke = false \/ rtcHasValidState (rtc g) = false ->
   checkAndRestoreFromSleep woke loggedIn wd now g = (false, g)) /\
  (woke = true ->
   rtcHasValidState (rtc g) = true ->
   rtcWasLoggedIn (rtc g) = true ->
   loggedIn = false ->
   fst (checkAndRestoreFromSleep woke loggedIn wd now g) = false /\
   screenTimer (snd (checkAndRestoreFromSleep woke loggedIn wd now g))
   = screenTimer g /\
   restoreTimerRunning (snd (checkAndRestoreFromSleep woke loggedIn wd now g))
   = restoreTimerRunning g /\
   rtcHasValidState
     (rtc (snd (checkAndRestoreFromSleep woke loggedIn wd now g))) = false).
Proof.
  split.
  - intros [H|H]; unfold checkAndRestoreFromSleep.
    + now rewrite H.
    + destruct woke; cbn [negb]; [|reflexivity]. now rewrite H.
  - intros -> Hv Hw ->. unfold checkAndRestoreFromSleep.
    cbn [negb]. rewrite Hv, Hw. cbn [negb andb fst snd].
    repeat split.
Qed.

Lemma wake_without_valid_state_restores_nothing_witness :
  checkAndRestoreFromSleep true true 2 1700000500
    (mkGlobals RtcMemory_init (mkScreenTimer STOPPED 3600 600 0) false)
  = (false,
     mkGlobals RtcMemory_init (mkScreenTimer STOPPED 3600 600 0) false).
Proof.
  apply (wake_without_valid_state_restores_nothing true true 2 1700000500).
  right. reflexivity.
Defined.

(** X23.  Starting a session that is already running.  While a session runs
    with time remaining, [start()] returns true and changes nothing: the
    start timestamp is not reset.  The same holds one and two levels up, for
    [SessionManager::startSession] and [MainScreen::startTimer], unless the
    allowance is unlimited, in which case [startSession] returns false, the
    session still left running. *)
Theorem start_keeps_a_running_session (now : time_t) (d : Device) :
  isRunning (_timer d) = true ->
  calculateRemainingSeconds now (_timer d) <> 0 ->
  start now (_timer d) = (true, _timer d) /\
  (hasUnlimitedAllowance d = false ->
   startSession now d = (true, d) /\ startTimer now d = (true, d)) /\
  (hasUnlimitedAllowance d = true ->
   startSession now d = (false, d) /\ startTimer now d = (false, d)).
Proof.
  intros Hrun Hrem.
  assert (Hr : _state (_timer d) = RUNNING) by now apply TimerState_eqb_eq.
  assert (Es : start now (_timer d) = (true, _timer d))
    by now apply start_already_running.
  assert (Hexp : isExpired (_timer d) = false)
    by (unfold isExpired; now rewrite Hr).
  split; [exact Es|]. split.
  - intros Hu.
    assert (E1 : startSession now d = (true, d)).
    { unfold startSession. rewrite Hu, Es. cbn [negb].
      now rewrite with_timer_same. }
    split; [exact E1|]. unfold startTimer. now rewrite Hexp, E1.
  - intros Hu.
    assert (E1 : startSession now d = (false, d))
      by (unfold startSession; now rewrite Hu).
    split; [exact E1|]. unfold startTimer. now rewrite Hexp, E1.
Qed.

Lemma start_keeps_a_running_session_witness :
  startTimer 1700000500
    (mkDevice (mkScreenTimer RUNNING 3600 600 1700000000)
       PersistenceManager_new false "child-1"%string true [])
  = (true,
     mkDevice (mkScreenTimer RUNNING 3600 600 1700000000)
       PersistenceManager_new false "child-1"%string true []).
Proof.
  destruct (start_keeps_a_running_session 1700000500
              (mkDevice (mkScreenTimer RUNNING 3600 600 1700000000)
                 PersistenceManager_new false "child-1"%string true []))
    as (_ & H & _).
  - reflexivity.
  - vm_compute. discriminate.
  - apply H. reflexivity.
Defined.
